(** * OpenAI Assistant provider: a shallow embedding of [openai-assistant.ts]

    The handler walks the thread / run / poll protocol of the Assistants API.
    Its only effects are HTTP requests through [axios], timed waits through
    [sleep], and the chunks it yields to the consumer of the stream.  They are
    modelled by explicit state passing over a [World] that records, in order,
    every request issued, every wait and every chunk yielded; the remote
    service is an arbitrary function from the number of the request to its
    outcome, typed by the response interface the call site asks for.

    Responses are taken at the interfaces the source declares for them, and
    the conversation at the type of [Anthropic.Messages.MessageParam].
    Console output ([console.log], [console.warn], [console.error]) has no
    influence on control flow and is left out.  The consumer is assumed to
    drain the stream, so that the generator body runs to its end. *)

From Stdlib Require Import String Ascii List ZArith Bool Lia.
Import ListNotations.

Local Open Scope string_scope.

(** ** JavaScript values *)

Definition newline : string := String (ascii_of_nat 10) EmptyString.

(** [Array.prototype.join] on an array of strings. *)
Definition join (sep : string) (xs : list string) : string := String.concat sep xs.

(** A string is falsy exactly when it is empty. *)
Definition truthy (s : string) : bool := negb (s =? "").

(** [o || d] for a possibly undefined string [o]. *)
Definition or_string (o : option string) (d : string) : string :=
  match o with
  | Some s => if truthy s then s else d
  | None => d
  end.

(** What a [throw] can carry: an instance of [Error] with its message, or any
    other value. *)
Inductive Exception :=
| ErrorObject (message : string)
| OtherValue (repr : string).

(** ** Response interfaces (lines 15-66) *)

Module ThreadResponse.
Record t := { id : string; object : string; created_at : Z }.
End ThreadResponse.

Module MessageResponse.
Record t := { id : string; object : string; thread_id : string }.
End MessageResponse.

Module ToolCall.
Record fn := { name : string; arguments : string }.
Record t := { id : string; type : string; function : fn }.
End ToolCall.

Module RequiredAction.
Record submit := { tool_calls : list ToolCall.t }.
Record t := { type : string; submit_tool_outputs : submit }.
End RequiredAction.

Module LastError.
Record t := { code : string; message : string }.
End LastError.

Module RunResponse.
Record t := {
  id : string;
  object : string;
  status : string;
  thread_id : string;
  assistant_id : string;
  required_action : option RequiredAction.t;
  last_error : option LastError.t
}.
End RunResponse.

Inductive Role := user | assistant.

Definition role_name (r : Role) : string :=
  match r with user => "user" | assistant => "assistant" end.

Definition role_eqb (a b : Role) : bool :=
  match a, b with
  | user, user | assistant, assistant => true
  | _, _ => false
  end.

Module ContentPart.
Record text_t := { value : string; annotations : list string }.
Record t := { type : string; text : option text_t }.
End ContentPart.

Module ThreadMessage.
Record t := { id : string; object : string; role : Role; content : list ContentPart.t }.
End ThreadMessage.

Module MessagesListResponse.
Record t := { object : string; data : list ThreadMessage.t }.
End MessagesListResponse.

(** The type parameter [T] of [makeApiCall<T>].  A call without a type
    argument has a result nobody inspects. *)
Inductive ResponseKind := KThread | KMessage | KRun | KMessagesList | KUnknown.

Definition response_of (k : ResponseKind) : Type :=
  match k with
  | KThread => ThreadResponse.t
  | KMessage => MessageResponse.t
  | KRun => RunResponse.t
  | KMessagesList => MessagesListResponse.t
  | KUnknown => unit
  end.

(** ** Conversation input ([Anthropic.Messages.MessageParam]) *)

Inductive ContentBlockParam :=
| TextBlockParam (text : string)
| ImageBlockParam (source : string)
| ToolUseBlockParam (id name input : string)
| ToolResultBlockParam (tool_use_id content : string).

Definition block_type (p : ContentBlockParam) : string :=
  match p with
  | TextBlockParam _ => "text"
  | ImageBlockParam _ => "image"
  | ToolUseBlockParam _ _ _ => "tool_use"
  | ToolResultBlockParam _ _ => "tool_result"
  end.

(** [(part as any).text]: undefined on the blocks that have no such field. *)
Definition block_text (p : ContentBlockParam) : option string :=
  match p with
  | TextBlockParam t => Some t
  | _ => None
  end.

(** [join] prints an undefined element as the empty string. *)
Definition join_element (o : option string) : string :=
  match o with Some s => s | None => "" end.

(** The declared type of [content] is a string or an array of blocks;
    [NeitherStringNorArray] stands for any run-time value outside it, the
    case the last [return] of the mapping callback is there for. *)
Inductive MessageContent :=
| StringContent (s : string)
| ArrayContent (parts : list ContentBlockParam)
| NeitherStringNorArray.

Module MessageParam.
Record t := { role : Role; content : MessageContent }.
End MessageParam.

(** ** Message flattener (lines 293-313) *)

Definition flatten_message (msg : MessageParam.t) : string :=
  match MessageParam.content msg with
  | StringContent s => role_name (MessageParam.role msg) ++ ": " ++ s
  | ArrayContent parts =>
      let textParts :=
        join newline
          (map (fun part => join_element (block_text part))
               (filter (fun part => block_type part =? "text") parts)) in
      role_name (MessageParam.role msg) ++ ": " ++ textParts
  | NeitherStringNorArray => ""
  end.

Definition constructUserMessage (systemPrompt : string) (messages : list MessageParam.t)
  : string :=
  let conversationText :=
    join (newline ++ newline)
      (filter (fun text => (0 <? String.length text)%nat) (map flatten_message messages)) in
  systemPrompt ++ newline ++ newline ++ conversationText.

(** ** Transport: requests, outcomes, the world *)

Inductive Method := GET | POST.

Module ToolOutput.
Record t := { tool_call_id : string; output : string }.
End ToolOutput.

(** The request bodies the handler sends. *)
Inductive RequestData :=
| EmptyObject
| MessageBody (role content : string)
| RunBody (assistant_id : string)
| ToolOutputsBody (tool_outputs : list ToolOutput.t).

Definition Headers := list (string * string).

(** Object spread followed by a key: a later key replaces an earlier one. *)
Fixpoint set_header (key value : string) (hs : Headers) : Headers :=
  match hs with
  | [] => [(key, value)]
  | (k, v) :: rest =>
      if k =? key then (key, value) :: rest else (k, v) :: set_header key value rest
  end.

Module AxiosRequestConfig.
Record t := {
  method : Method;
  url : string;
  headers : Headers;
  data : option RequestData;
  timeout : Z
}.
End AxiosRequestConfig.

(** An error for which [axios.isAxiosError] holds.  [response] is absent on a
    network-level failure; [error_message] is [response.data?.error?.message]. *)
Module AxiosError.
Record response_t := { status : Z; error_message : option string }.
Record t := { response : option response_t; message : string }.
End AxiosError.

Inductive AxiosOutcome (T : Type) :=
| Resolved (data : T)
| RejectedAxios (error : AxiosError.t)
| RejectedOther (error : Exception).
Arguments Resolved {T} data.
Arguments RejectedAxios {T} error.
Arguments RejectedOther {T} error.

Module ApiStreamChunk.
Inductive t :=
| text (text : string)
| usage (inputTokens outputTokens : Z).
End ApiStreamChunk.

Inductive Event :=
| Request (config : AxiosRequestConfig.t)
| Sleep (ms : Z)
| Yield (chunk : ApiStreamChunk.t).

(** [calls] counts the requests issued so far, [trace] lists every effect in
    the order it happened. *)
Record World := { calls : nat; trace : list Event }.

Definition initial_world : World := {| calls := 0; trace := [] |}.

(** The remote service: the outcome of the n-th request of the invocation, at
    the response type the caller expects. *)
Definition Server := forall k : ResponseKind, nat -> AxiosOutcome (response_of k).

(** ** A state and exception monad for the handler's control flow *)

Inductive Completion (A : Type) :=
| Normal (a : A)
| Throw (e : Exception)
| OutOfFuel.
Arguments Normal {A} a.
Arguments Throw {A} e.
Arguments OutOfFuel {A}.

Definition M (A : Type) : Type := World -> Completion A * World.

Definition ret {A} (a : A) : M A := fun w => (Normal a, w).

Definition bind {A B} (m : M A) (f : A -> M B) : M B :=
  fun w =>
    match m w with
    | (Normal a, w') => f a w'
    | (Throw e, w') => (Throw e, w')
    | (OutOfFuel, w') => (OutOfFuel, w')
    end.

Definition throw {A} (e : Exception) : M A := fun w => (Throw e, w).

Definition out_of_fuel {A} : M A := fun w => (OutOfFuel, w).

Definition try_catch {A} (body : M A) (handler : Exception -> M A) : M A :=
  fun w =>
    match body w with
    | (Throw e, w') => handler e w'
    | r => r
    end.

Declare Scope handler_scope.
Delimit Scope handler_scope with handler.
Notation "x <- m ;; f" := (bind m (fun x => f))
  (at level 61, m at next level, right associativity) : handler_scope.
Notation "m ;; f" := (bind m (fun _ => f))
  (at level 61, right associativity) : handler_scope.
Local Open Scope handler_scope.

Definition emit (e : Event) : M unit :=
  fun w => (Normal tt, {| calls := calls w; trace := trace w ++ [e] |}).

(** [sleep] (lines 318-320). *)
Definition sleep (ms : Z) : M unit := emit (Sleep ms).

Definition yield (chunk : ApiStreamChunk.t) : M unit := emit (Yield chunk).

(** The chunks a consumer has received. *)
Definition yielded (w : World) : list ApiStreamChunk.t :=
  flat_map (fun e => match e with Yield c => [c] | _ => [] end) (trace w).

Definition requests (w : World) : list AxiosRequestConfig.t :=
  flat_map (fun e => match e with Request c => [c] | _ => [] end) (trace w).

Definition sleeps (w : World) : list Z :=
  flat_map (fun e => match e with Sleep ms => [ms] | _ => [] end) (trace w).

(** ** Handler options and constructor (lines 81-106) *)

Module ApiHandlerOptions.
Record t := {
  openAiAssistantBaseUrl : option string;
  openAiAssistantApiKey : option string;
  openAiAssistantId : option string
}.
End ApiHandlerOptions.

Module Handler.
Record t := {
  options : ApiHandlerOptions.t;
  baseURL : string;
  apiKey : string;
  assistantId : string;
  headers : Headers;
  timeout : Z
}.
End Handler.

(** The variables the poll loop of [createMessage] updates. *)
Module PollState.
Record t := { runStatus : string; currentRun : RunResponse.t; elapsedTime : Z }.
End PollState.

(** [private readonly providerName]. *)
Definition providerName : string := "OpenAI Assistant".

Section Provider.

(** Imported from modules outside this file: [DEFAULT_HEADERS] of
    [./constants] and the value of [getApiRequestTimeout()]. *)
Variable DEFAULT_HEADERS : Headers.
Variable apiRequestTimeout : Z.

Variable server : Server.

Definition constructor (options : ApiHandlerOptions.t) : Handler.t :=
  let baseURL :=
    or_string (ApiHandlerOptions.openAiAssistantBaseUrl options) "https://api.openai.com/v1" in
  let apiKey := or_string (ApiHandlerOptions.openAiAssistantApiKey options) "" in
  let assistantId := or_string (ApiHandlerOptions.openAiAssistantId options) "" in
  {| Handler.options := options;
     Handler.baseURL := baseURL;
     Handler.apiKey := apiKey;
     Handler.assistantId := assistantId;
     Handler.headers :=
       set_header "Authorization" ("Bearer " ++ apiKey)
         (set_header "Content-Type" "application/json"
            (set_header "OpenAI-Beta" "assistants=v2" DEFAULT_HEADERS));
     Handler.timeout := apiRequestTimeout |}.

(** The call [axios({...})]: the request is recorded and the service
    answers it. *)
Definition axios (k : ResponseKind) (config : AxiosRequestConfig.t)
  : M (AxiosOutcome (response_of k)) :=
  fun w =>
    (Normal (server k (calls w)),
     {| calls := S (calls w); trace := trace w ++ [Request config] |}).

(** ** makeApiCall (lines 108-144) *)

Definition maxRetries : Z := 2.
Definition retryDelay : Z := 60000.

Definition status_is (statusCode : option Z) (n : Z) : bool :=
  match statusCode with
  | Some s => (s =? n)%Z
  | None => false
  end.

(** [error.response?.data?.error?.message]. *)
Definition remote_message (error : AxiosError.t) : option string :=
  match AxiosError.response error with
  | Some r => AxiosError.error_message r
  | None => None
  end.

(** [error.response?.data?.error?.message || error.message]. *)
Definition reported_message (error : AxiosError.t) : string :=
  or_string (remote_message error) (AxiosError.message error).

Fixpoint makeApiCall_from (fuel : nat) (this : Handler.t) (k : ResponseKind)
    (method : Method) (endpoint : string) (data : option RequestData)
    (retryCount : Z) : M (response_of k) :=
  match fuel with
  | O => out_of_fuel
  | S fuel' =>
      outcome <- axios k
        {| AxiosRequestConfig.method := method;
           AxiosRequestConfig.url := Handler.baseURL this ++ endpoint;
           AxiosRequestConfig.headers := Handler.headers this;
           AxiosRequestConfig.data := data;
           AxiosRequestConfig.timeout := Handler.timeout this |} ;;
      match outcome with
      | Resolved response_data => ret response_data
      | RejectedAxios error =>
          let statusCode := option_map AxiosError.status (AxiosError.response error) in
          let message := reported_message error in
          if status_is statusCode 429 && (retryCount <? maxRetries)%Z then
            sleep retryDelay ;;
            makeApiCall_from fuel' this k method endpoint data (retryCount + 1)%Z
          else
            throw (ErrorObject (providerName ++ " API error: " ++ message))
      | RejectedOther error => throw error
      end
  end.

(** A call starts at [retryCount = 0]; one unit of fuel per attempt that
    [maxRetries] allows. *)
Definition makeApiCall (this : Handler.t) (k : ResponseKind)
    (method : Method) (endpoint : string) (data : option RequestData) : M (response_of k) :=
  makeApiCall_from (S (Z.to_nat maxRetries)) this k method endpoint data 0%Z.

(** ** createMessage (lines 146-274) *)

Definition maxWaitTime : Z := 300000.
Definition pollInterval : Z := 1000.

(** Steps 1 to 3 (lines 157-178): create the thread, post the flattened
    conversation as one user message, create the run. *)
Definition createThreadAndRun (this : Handler.t) (systemPrompt : string)
    (messages : list MessageParam.t) : M (ThreadResponse.t * RunResponse.t) :=
  thread <- makeApiCall this KThread POST "/threads" (Some EmptyObject) ;;
  let fullMessage := constructUserMessage systemPrompt messages in
  _ <- makeApiCall this KMessage POST
         ("/threads/" ++ ThreadResponse.id thread ++ "/messages")
         (Some (MessageBody "user" fullMessage)) ;;
  run <- makeApiCall this KRun POST
           ("/threads/" ++ ThreadResponse.id thread ++ "/runs")
           (Some (RunBody (Handler.assistantId this))) ;;
  ret (thread, run).

(** Step 4 (lines 180-226). *)
Definition initial_poll_state (run : RunResponse.t) : PollState.t :=
  {| PollState.runStatus := RunResponse.status run;
     PollState.currentRun := run;
     PollState.elapsedTime := 0 |}.

(** The condition of the [while]. *)
Definition loop_condition (st : PollState.t) : bool :=
  negb (PollState.runStatus st =? "completed")
  && (PollState.elapsedTime st <? maxWaitTime)%Z.

Definition is_failure_status (runStatus : string) : bool :=
  (runStatus =? "failed") || (runStatus =? "cancelled") || (runStatus =? "expired").

Definition errorDetails (currentRun : RunResponse.t) : string :=
  match RunResponse.last_error currentRun with
  | Some last_error => LastError.code last_error ++ ": " ++ LastError.message last_error
  | None => "No error details available"
  end.

Definition toolOutputs (toolCalls : list ToolCall.t) : list ToolOutput.t :=
  map (fun call =>
         {| ToolOutput.tool_call_id := ToolCall.id call;
            ToolOutput.output := "Tool execution not implemented" |})
      toolCalls.

Definition run_endpoint (thread : ThreadResponse.t) (run : RunResponse.t) : string :=
  "/threads/" ++ ThreadResponse.id thread ++ "/runs/" ++ RunResponse.id run.

(** The body of the [while]: one poll. *)
Definition poll_iteration (this : Handler.t) (thread : ThreadResponse.t)
    (run : RunResponse.t) (st : PollState.t) : M PollState.t :=
  sleep pollInterval ;;
  let elapsedTime := (PollState.elapsedTime st + pollInterval)%Z in
  currentRun <- makeApiCall this KRun GET (run_endpoint thread run) None ;;
  let runStatus := RunResponse.status currentRun in
  if is_failure_status runStatus then
    throw (ErrorObject ("Assistant run " ++ runStatus ++ ": " ++ errorDetails currentRun))
  else
    match runStatus =? "requires_action", RunResponse.required_action currentRun with
    | true, Some required_action =>
        let toolCalls :=
          RequiredAction.tool_calls (RequiredAction.submit_tool_outputs required_action) in
        _ <- makeApiCall this KUnknown POST
               (run_endpoint thread run ++ "/submit_tool_outputs")
               (Some (ToolOutputsBody (toolOutputs toolCalls))) ;;
        ret tt
    | _, _ => ret tt
    end ;;
    ret {| PollState.runStatus := runStatus;
           PollState.currentRun := currentRun;
           PollState.elapsedTime := elapsedTime |}.

(** The wait and the re-fetch that open an iteration (lines 188-192). *)
Definition fetch_run (this : Handler.t) (thread : ThreadResponse.t)
    (run : RunResponse.t) : M RunResponse.t :=
  sleep pollInterval ;;
  makeApiCall this KRun GET (run_endpoint thread run) None.

Fixpoint poll_loop (fuel : nat) (this : Handler.t) (thread : ThreadResponse.t)
    (run : RunResponse.t) (st : PollState.t) : M PollState.t :=
  if loop_condition st then
    match fuel with
    | O => out_of_fuel
    | S fuel' =>
        st' <- poll_iteration this thread run st ;;
        poll_loop fuel' this thread run st'
    end
  else ret st.

(** The loop adds [pollInterval] to a counter that starts at 0 and stops at
    [maxWaitTime]: it cannot go round more often than this. *)
Definition poll_fuel : nat := Z.to_nat (maxWaitTime / pollInterval).

(** Step 5 and the two yields (lines 235-266). *)
Definition has_text (c : ContentPart.t) : bool :=
  (ContentPart.type c =? "text")
  && match ContentPart.text c with Some _ => true | None => false end.

(** [c.text!.value]; the filter before it leaves only parts that have
    [text]. *)
Definition text_value (c : ContentPart.t) : string :=
  match ContentPart.text c with
  | Some t => ContentPart.value t
  | None => ""
  end.

Definition textContent (latestMessage : ThreadMessage.t) : string :=
  join newline (map text_value (filter has_text (ThreadMessage.content latestMessage))).

Definition assistantMessages (messagesResponse : MessagesListResponse.t)
  : list ThreadMessage.t :=
  filter (fun msg => role_eqb (ThreadMessage.role msg) assistant)
         (MessagesListResponse.data messagesResponse).

Definition retrieveResponse (this : Handler.t) (thread : ThreadResponse.t) : M unit :=
  messagesResponse <- makeApiCall this KMessagesList GET
                        ("/threads/" ++ ThreadResponse.id thread ++ "/messages") None ;;
  match assistantMessages messagesResponse with
  | [] => throw (ErrorObject "No assistant response found")
  | latestMessage :: _ =>
      yield (ApiStreamChunk.text (textContent latestMessage)) ;;
      yield (ApiStreamChunk.usage 0 0)
  end.

(** Lines 228-231 and what follows the loop. *)
Definition afterPolling (this : Handler.t) (thread : ThreadResponse.t)
    (st : PollState.t) : M unit :=
  if negb (PollState.runStatus st =? "completed") then
    throw (ErrorObject "Assistant run timeout")
  else retrieveResponse this thread.

(** The [catch] of lines 267-273. *)
Definition rethrow_wrapped (this : Handler.t) (error : Exception) : M unit :=
  match error with
  | ErrorObject message =>
      throw (ErrorObject (providerName ++ " error: " ++ message))
  | OtherValue _ => throw error
  end.

Definition createMessage_body (this : Handler.t) (systemPrompt : string)
    (messages : list MessageParam.t) : M unit :=
  created <- createThreadAndRun this systemPrompt messages ;;
  let (thread, run) := created in
  st <- poll_loop poll_fuel this thread run (initial_poll_state run) ;;
  afterPolling this thread st.

Definition createMessage (this : Handler.t) (systemPrompt : string)
    (messages : list MessageParam.t) : M unit :=
  if negb (truthy (Handler.assistantId this)) then
    throw (ErrorObject "OpenAI Assistant ID is required")
  else
    try_catch (createMessage_body this systemPrompt messages) (rethrow_wrapped this).

End Provider.

(** ** Closed forms used to state the properties *)

(** The events of a call that needed [retries] retries: the same request,
    re-issued after each wait of [retryDelay]. *)
Fixpoint attempts (request : AxiosRequestConfig.t) (retries : nat) : list Event :=
  match retries with
  | O => [Request request]
  | S n => Request request :: Sleep retryDelay :: attempts request n
  end.

Definition after_attempts (w : World) (request : AxiosRequestConfig.t) (retries : nat)
  : World :=
  {| calls := calls w + S retries; trace := trace w ++ attempts request retries |}.

(** An outcome is a rate limit when it is an axios error whose response has
    status 429. *)
Definition rate_limited {T} (outcome : AxiosOutcome T) : bool :=
  match outcome with
  | RejectedAxios error =>
      match AxiosError.response error with
      | Some r => (AxiosError.status r =? 429)%Z
      | None => false
      end
  | _ => false
  end.

(** How the attempt that is not retried ends the call. *)
Definition settle {T} (outcome : AxiosOutcome T) : Completion T :=
  match outcome with
  | Resolved response_data => Normal response_data
  | RejectedAxios error =>
      Throw (ErrorObject (providerName ++ " API error: " ++ reported_message error))
  | RejectedOther error => Throw error
  end.

(** The number of retries the call that starts at request [n] makes. *)
Definition retries_taken (server : Server) (k : ResponseKind) (n : nat) : nat :=
  if rate_limited (server k n) then
    if rate_limited (server k (S n)) then 2 else 1
  else 0.

Definition request_of (this : Handler.t) (method : Method) (endpoint : string)
    (data : option RequestData) : AxiosRequestConfig.t :=
  {| AxiosRequestConfig.method := method;
     AxiosRequestConfig.url := Handler.baseURL this ++ endpoint;
     AxiosRequestConfig.headers := Handler.headers this;
     AxiosRequestConfig.data := data;
     AxiosRequestConfig.timeout := Handler.timeout this |}.

Definition is_submission (request : AxiosRequestConfig.t) : bool :=
  match AxiosRequestConfig.data request with
  | Some (ToolOutputsBody _) => true
  | _ => false
  end.

(** The text values of the text-typed parts of a thread message, in order. *)
Definition text_values (content : list ContentPart.t) : list string :=
  flat_map
    (fun c =>
       if ContentPart.type c =? "text" then
         match ContentPart.text c with
         | Some t => [ContentPart.value t]
         | None => []
         end
       else [])
    content.

(** The texts of the text blocks of a conversation message, in order. *)
Definition block_texts (parts : list ContentBlockParam) : list string :=
  flat_map (fun p => match p with TextBlockParam t => [t] | _ => [] end) parts.

Definition has_string_or_array_content (msg : MessageParam.t) : bool :=
  match MessageParam.content msg with
  | NeitherStringNorArray => false
  | _ => true
  end.

Definition content_string (msg : MessageParam.t) : string :=
  match MessageParam.content msg with
  | StringContent s => s
  | ArrayContent parts => join newline (block_texts parts)
  | NeitherStringNorArray => ""
  end.

Definition rendered (msg : MessageParam.t) : string :=
  role_name (MessageParam.role msg) ++ ": " ++ content_string msg.

(** One round of the poll loop that ends normally, as a step relation, and
    the states the loop goes through. *)
Section Iterations.

Variable server : Server.
Variable this : Handler.t.
Variable thread : ThreadResponse.t.
Variable run : RunResponse.t.

Inductive iterates : nat -> PollState.t * World -> PollState.t * World -> Prop :=
| iterates_refl : forall x, iterates 0 x x
| iterates_step : forall n st w st' w' y,
    loop_condition st = true ->
    poll_iteration server this thread run st w = (Normal st', w') ->
    iterates n (st', w') y ->
    iterates (S n) (st, w) y.

End Iterations.

(** What a computation does to the world: [keeps P m] when the worlds before
    and after [m] are always related by [P]; [terminates m] when [m] never
    runs out of fuel. *)
Definition keeps {A} (P : World -> World -> Prop) (m : M A) : Prop :=
  forall w, P w (snd (m w)).

Definition terminates {A} (m : M A) : Prop :=
  forall w, fst (m w) <> OutOfFuel.

Definition same_yield (w w' : World) : Prop := yielded w' = yielded w.

(** [raises_errors m] when whatever [m] throws is an instance of [Error]. *)
Definition raises_errors {A} (m : M A) : Prop :=
  forall w v, fst (m w) <> Throw (OtherValue v).

(** Every submission of tool outputs in the trace answers a run that an
    earlier request fetched in status [requires_action] with its
    [required_action] present, and carries the outputs for the tool calls of
    that run. *)
Definition justified (server : Server) (w : World) : Prop :=
  forall request,
    In request (requests w) -> is_submission request = true ->
    exists n currentRun required_action,
      n < calls w
      /\ server KRun n = Resolved currentRun
      /\ RunResponse.status currentRun = "requires_action"
      /\ RunResponse.required_action currentRun = Some required_action
      /\ AxiosRequestConfig.data request
         = Some (ToolOutputsBody
                   (toolOutputs (RequiredAction.tool_calls
                                   (RequiredAction.submit_tool_outputs required_action)))).

Definition stays_justified (server : Server) (w w' : World) : Prop :=
  calls w <= calls w' /\ (justified server w -> justified server w').

(** The loop variables after a poll that fetched [currentRun]. *)
Definition polled (st : PollState.t) (currentRun : RunResponse.t) : PollState.t :=
  {| PollState.runStatus := RunResponse.status currentRun;
     PollState.currentRun := currentRun;
     PollState.elapsedTime := PollState.elapsedTime st + pollInterval |}.

(** The call that submits the placeholder outputs for [required_action]. *)
Definition submission (server : Server) (this : Handler.t) (thread : ThreadResponse.t)
    (run : RunResponse.t) (required_action : RequiredAction.t) : M unit :=
  bind
    (makeApiCall server this KUnknown POST
       (run_endpoint thread run ++ "/submit_tool_outputs")
       (Some (ToolOutputsBody
                (toolOutputs (RequiredAction.tool_calls
                                (RequiredAction.submit_tool_outputs required_action))))))
    (fun _ => ret tt).

(** The number of waits of one poll interval in the trace. *)
Definition poll_waits (w : World) : nat :=
  count_occ Z.eq_dec (sleeps w) pollInterval.

(** From request [n] on, every fetch of the run is answered at once by a run
    in "requires_action" without [required_action]. *)
Definition stuck_from (server : Server) (n : nat) : Prop :=
  forall i, n <= i ->
    exists currentRun,
      server KRun i = Resolved currentRun
      /\ RunResponse.status currentRun = "requires_action"
      /\ RunResponse.required_action currentRun = None.

(** The world after the wait that opens a poll. *)
Definition slept (w : World) : World :=
  {| calls := calls w; trace := trace w ++ [Sleep pollInterval] |}.

(** ** The flattener as the specification words it

    "The flattened text excludes any message whose content reduces to zero
    text parts": a message with an array content none of whose parts is a
    text part is left out, one with a string content never is. *)

Definition reduces_to_zero_text_parts (msg : MessageParam.t) : bool :=
  match MessageParam.content msg with
  | StringContent _ => false
  | ArrayContent parts =>
      match filter (fun part => block_type part =? "text") parts with
      | [] => true
      | _ :: _ => false
      end
  | NeitherStringNorArray => true
  end.

Definition constructUserMessage_as_specified (systemPrompt : string)
    (messages : list MessageParam.t) : string :=
  systemPrompt ++ newline ++ newline
  ++ join (newline ++ newline)
       (map rendered (filter (fun msg => negb (reduces_to_zero_text_parts msg)) messages)).

(** The error message of a failed call as the specification words it: the
    remote message when present, else the transport message, after the
    provider name. *)
Definition api_error_message_as_specified (error : AxiosError.t) : string :=
  providerName ++ " API error: "
  ++ match remote_message error with
     | Some remote => remote
     | None => AxiosError.message error
     end.

(** ** Sample data *)

Module Sample.

Definition options : ApiHandlerOptions.t :=
  {| ApiHandlerOptions.openAiAssistantBaseUrl := None;
     ApiHandlerOptions.openAiAssistantApiKey := Some "sk-test";
     ApiHandlerOptions.openAiAssistantId := Some "asst_1" |}.

Definition handler : Handler.t :=
  constructor [("User-Agent", "Kilo-Code")] 600000 options.

Definition thread : ThreadResponse.t :=
  {| ThreadResponse.id := "thread_1";
     ThreadResponse.object := "thread";
     ThreadResponse.created_at := 1700000000 |}.

Definition message : MessageResponse.t :=
  {| MessageResponse.id := "msg_1";
     MessageResponse.object := "thread.message";
     MessageResponse.thread_id := "thread_1" |}.

Definition run_in (status : string) (required_action : option RequiredAction.t)
    (last_error : option LastError.t) : RunResponse.t :=
  {| RunResponse.id := "run_1";
     RunResponse.object := "thread.run";
     RunResponse.status := status;
     RunResponse.thread_id := "thread_1";
     RunResponse.assistant_id := "asst_1";
     RunResponse.required_action := required_action;
     RunResponse.last_error := last_error |}.

Definition text_part (s : string) : ContentPart.t :=
  {| ContentPart.type := "text";
     ContentPart.text := Some {| ContentPart.value := s; ContentPart.annotations := [] |} |}.

Definition image_part : ContentPart.t :=
  {| ContentPart.type := "image_file"; ContentPart.text := None |}.

Definition listing : MessagesListResponse.t :=
  {| MessagesListResponse.object := "list";
     MessagesListResponse.data :=
       [ {| ThreadMessage.id := "msg_3"; ThreadMessage.object := "thread.message";
            ThreadMessage.role := assistant;
            ThreadMessage.content := [text_part "Hello"; image_part; text_part "world"] |};
         {| ThreadMessage.id := "msg_1"; ThreadMessage.object := "thread.message";
            ThreadMessage.role := user;
            ThreadMessage.content := [text_part "question"] |} ] |}.

Definition listing_without_answer : MessagesListResponse.t :=
  {| MessagesListResponse.object := "list";
     MessagesListResponse.data :=
       [ {| ThreadMessage.id := "msg_1"; ThreadMessage.object := "thread.message";
            ThreadMessage.role := user;
            ThreadMessage.content := [text_part "question"] |} ] |}.

Definition conversation : list MessageParam.t :=
  [ {| MessageParam.role := user; MessageParam.content := StringContent "Hi" |};
    {| MessageParam.role := assistant;
       MessageParam.content := ArrayContent [TextBlockParam "a"; ImageBlockParam "png"; TextBlockParam "b"] |} ].

Definition image_only : MessageParam.t :=
  {| MessageParam.role := user; MessageParam.content := ArrayContent [ImageBlockParam "png"] |}.

Definition tool_calls : list ToolCall.t :=
  [ {| ToolCall.id := "call_1"; ToolCall.type := "function";
       ToolCall.function := {| ToolCall.name := "f"; ToolCall.arguments := "{}" |} |};
    {| ToolCall.id := "call_2"; ToolCall.type := "function";
       ToolCall.function := {| ToolCall.name := "g"; ToolCall.arguments := "{}" |} |} ].

Definition action : RequiredAction.t :=
  {| RequiredAction.type := "submit_tool_outputs";
     RequiredAction.submit_tool_outputs := {| RequiredAction.tool_calls := tool_calls |} |}.

Definition http_error (status : Z) (remote : option string) (message : string)
  : AxiosError.t :=
  {| AxiosError.response :=
       Some {| AxiosError.status := status; AxiosError.error_message := remote |};
     AxiosError.message := message |}.

(** A service whose run answers are given by [runs]: the request numbered
    [n] that asks for a run gets [runs n]. *)
Definition service (runs : nat -> RunResponse.t) (messages : MessagesListResponse.t)
  : Server :=
  fun k n =>
    match k return AxiosOutcome (response_of k) with
    | KThread => Resolved thread
    | KMessage => Resolved message
    | KRun => Resolved (runs n)
    | KMessagesList => Resolved messages
    | KUnknown => Resolved tt
    end.

(** queued, in progress, then completed. *)
Definition completing (n : nat) : RunResponse.t :=
  match n with
  | 2 => run_in "queued" None None
  | 3 => run_in "in_progress" None None
  | _ => run_in "completed" None None
  end.

Definition never_completing (_ : nat) : RunResponse.t := run_in "in_progress" None None.

(** in progress, then failed with an error attached. *)
Definition failing (n : nat) : RunResponse.t :=
  match n with
  | 2 | 3 => run_in "in_progress" None None
  | _ => run_in "failed" None
           (Some {| LastError.code := "server_error"; LastError.message := "boom" |})
  end.

(** asks for tool outputs once, then completes. *)
Definition acting (n : nat) : RunResponse.t :=
  match n with
  | 2 => run_in "queued" None None
  | 3 => run_in "requires_action" (Some action) None
  | _ => run_in "completed" None None
  end.

(** stays in [requires_action] with no payload. *)
Definition stuck (_ : nat) : RunResponse.t := run_in "requires_action" None None.

(** Every request is answered by the same outcome. *)
Definition always (outcome : forall k, AxiosOutcome (response_of k)) : Server :=
  fun k _ => outcome k.

(** Rate limited on the first [n] requests, then as [service]. *)
Definition limited_then (n : nat) (s : Server) : Server :=
  fun k i =>
    if (i <? n)%nat then
      RejectedAxios (http_error 429 (Some "Rate limit reached") "Request failed with status code 429")
    else s k i.

End Sample.

(** ** getModel (lines 276-288) *)

(** An object read as the list of its properties: the value of [key] is that
    of the first entry for it. *)
Fixpoint property {V : Type} (key : string) (obj : list (string * V)) : option V :=
  match obj with
  | [] => None
  | (k, v) :: rest => if k =? key then Some v else property key rest
  end.

(** The values the fields of a [ModelInfo] take. *)
Inductive FieldValue :=
| NumberField (n : Z)
| BooleanField (b : bool)
| OtherField (repr : string).

Definition ModelInfo := list (string * FieldValue).

(** Object spread followed by a key, on model information. *)
Fixpoint set_field (key : string) (value : FieldValue) (obj : ModelInfo) : ModelInfo :=
  match obj with
  | [] => [(key, value)]
  | (k, v) :: rest =>
      if k =? key then (key, value) :: rest else (k, v) :: set_field key value rest
  end.

Module ModelDescription.
Record t := { id : string; info : ModelInfo }.
End ModelDescription.

(** [openAiModelInfoSaneDefaults] is imported from [@roo-code/types]. *)
Definition getModel (openAiModelInfoSaneDefaults : ModelInfo) (this : Handler.t)
  : ModelDescription.t :=
  {| ModelDescription.id := Handler.assistantId this;
     ModelDescription.info :=
       set_field "supportsPromptCache" (BooleanField false)
         (set_field "contextWindow" (NumberField 128000)
            (set_field "maxTokens" (NumberField 16384) openAiModelInfoSaneDefaults)) |}.

(** ** Measures and predicates for the further properties *)

(** The time an invocation has spent waiting, in milliseconds. *)
Definition total_wait (w : World) : Z := fold_right Z.add 0%Z (sleeps w).

(** The request was built by [makeApiCall] of this handler. *)
Definition issued_by (this : Handler.t) (request : AxiosRequestConfig.t) : Prop :=
  AxiosRequestConfig.headers request = Handler.headers this
  /\ AxiosRequestConfig.timeout request = Handler.timeout this
  /\ String.prefix (Handler.baseURL this) (AxiosRequestConfig.url request) = true.

(** What was requested between two worlds satisfies [P]. *)
Definition requested (P : AxiosRequestConfig.t -> Prop) (w w' : World) : Prop :=
  exists new, requests w' = (requests w ++ new)%list /\ Forall P new.

(** A request of the poll loop: the fetch of the run, or a submission of tool
    outputs to it. *)
Definition polls_run (this : Handler.t) (thread : ThreadResponse.t) (run : RunResponse.t)
    (request : AxiosRequestConfig.t) : Prop :=
  request = request_of this GET (run_endpoint thread run) None
  \/ exists outputs,
       request = request_of this POST (run_endpoint thread run ++ "/submit_tool_outputs")
                   (Some (ToolOutputsBody outputs)).

(** Bounds on what a computation adds: requests, waits of one poll interval,
    and waiting time. *)
Definition adds_at_most (c p : nat) (t : Z) (w w' : World) : Prop :=
  length (requests w') <= length (requests w) + c
  /\ poll_waits w' <= poll_waits w + p
  /\ (total_wait w' <= total_wait w + t)%Z.

Definition bounded {A} (c p : nat) (t : Z) (m : M A) : Prop :=
  forall w, adds_at_most c p t w (snd (m w)).

(** The statuses the poll loop acts on. *)
Definition is_handled_status (runStatus : string) : bool :=
  (runStatus =? "completed") || is_failure_status runStatus
  || (runStatus =? "requires_action").

(** From request [n] on, every fetch of the run is answered at once by a run
    in a status the loop does not act on. *)
Definition unhandled_from (server : Server) (n : nat) : Prop :=
  forall i, n <= i ->
    exists currentRun,
      server KRun i = Resolved currentRun
      /\ is_handled_status (RunResponse.status currentRun) = false.

(** A message with its array content replaced by the text the flattener
    reads in it. *)
Definition as_string_content (msg : MessageParam.t) : MessageParam.t :=
  {| MessageParam.role := MessageParam.role msg;
     MessageParam.content :=
       match MessageParam.content msg with
       | ArrayContent parts => StringContent (join newline (block_texts parts))
       | other => other
       end |}.

(** What can end the poll loop by a throw: the error made for a run fetched
    in status "failed", "cancelled" or "expired", or the way a transport call
    of the loop ended, an axios error reported under the provider name or
    another rejection passed on. *)
Definition thrown_in_poll (server : Server) (e : Exception) : Prop :=
  (exists n currentRun,
      server KRun n = Resolved currentRun
      /\ is_failure_status (RunResponse.status currentRun) = true
      /\ e = ErrorObject ("Assistant run " ++ RunResponse.status currentRun ++ ": "
                          ++ errorDetails currentRun))
  \/ (exists k n,
        (exists error,
            server k n = RejectedAxios error
            /\ e = ErrorObject ("OpenAI Assistant API error: " ++ reported_message error))
        \/ server k n = RejectedOther e).

(** The run answers of a service never show the status "completed". *)
Definition never_completed (server : Server) : Prop :=
  forall n currentRun,
    server KRun n = Resolved currentRun -> RunResponse.status currentRun <> "completed".

(** ** Further sample data *)

Module Scenario.

(** A run the service reports as incomplete, with a pending action attached. *)
Definition incomplete (_ : nat) : RunResponse.t :=
  Sample.run_in "incomplete" (Some Sample.action) None.

Definition bad_request : AxiosError.t :=
  Sample.http_error 400 (Some "Invalid tool outputs") "Request failed with status code 400".

(** As [Sample.service], but submissions of tool outputs are refused. *)
Definition refusing_submissions (runs : nat -> RunResponse.t) : Server :=
  fun k n =>
    match k return AxiosOutcome (response_of k) with
    | KUnknown => RejectedAxios bad_request
    | k' => Sample.service runs Sample.listing k' n
    end.

Definition unauthorized : AxiosError.t :=
  Sample.http_error 401 (Some "Incorrect API key provided")
    "Request failed with status code 401".

Definition defaults : ModelInfo :=
  [("maxTokens", NumberField (-1)); ("supportsImages", BooleanField false)].

End Scenario.

(** * Properties *)

(** ** The flattener *)

Lemma role_name_not_empty : forall r rest,
  (0 <? String.length (role_name r ++ rest))%nat = true.
Proof. intros [] rest; reflexivity. Qed.

Lemma text_parts_are_block_texts : forall parts,
  map (fun part => join_element (block_text part))
      (filter (fun part => block_type part =? "text") parts)
  = block_texts parts.
Proof.
  induction parts as [|p parts IH]; [reflexivity|].
  destruct p; cbn [filter block_type String.eqb Ascii.eqb Bool.eqb]; cbn; rewrite ?IH; reflexivity.
Qed.

Lemma flatten_message_rendered : forall msg,
  has_string_or_array_content msg = true -> flatten_message msg = rendered msg.
Proof.
  intros [r c]; unfold has_string_or_array_content, flatten_message, rendered, content_string.
  destruct c; cbn [MessageParam.content MessageParam.role]; intros H;
    [reflexivity | now rewrite text_parts_are_block_texts | discriminate].
Qed.

Lemma flatten_message_kept : forall msg,
  (0 <? String.length (flatten_message msg))%nat = has_string_or_array_content msg.
Proof.
  intros [r c]; unfold has_string_or_array_content, flatten_message.
  destruct c; cbn [MessageParam.content MessageParam.role];
    [apply role_name_not_empty | apply role_name_not_empty | reflexivity].
Qed.

Lemma surviving_strings : forall messages,
  filter (fun text => (0 <? String.length text)%nat) (map flatten_message messages)
  = map rendered (filter has_string_or_array_content messages).
Proof.
  induction messages as [|msg messages IH]; [reflexivity|].
  cbn [map filter]. rewrite flatten_message_kept.
  destruct (has_string_or_array_content msg) eqn:K; [|exact IH].
  cbn [map]. rewrite IH, (flatten_message_rendered msg K). reflexivity.
Qed.

Lemma joined_rendered_starts_with_role : forall sep msgs c rest,
  join sep (map rendered msgs) = String c rest -> c <> ascii_of_nat 10.
Proof.
  intros sep [|[r content] msgs] c rest; [discriminate|].
  unfold join, rendered. cbn [map String.concat MessageParam.role].
  destruct (map _ msgs); destruct r; cbn; intros H; inversion H; discriminate.
Qed.

(** C1, as amended.  The flattened text is the system prompt, exactly two
    newline characters, and the strings "{role}: {content}" of the messages
    whose content is a string or an array of parts, in order and joined by a
    blank line; the text after the two newlines never starts with a third
    one; a message is left out only when its content is neither a string nor
    an array. *)
Theorem constructUserMessage_flattening : forall systemPrompt messages,
  let kept := filter has_string_or_array_content messages in
  let conversationText := join (newline ++ newline) (map rendered kept) in
  constructUserMessage systemPrompt messages
    = systemPrompt ++ newline ++ newline ++ conversationText
  /\ (forall c rest, conversationText = String c rest -> c <> ascii_of_nat 10)
  /\ (forall msg, In msg messages ->
        (In msg kept <-> MessageParam.content msg <> NeitherStringNorArray)).
Proof.
  intros systemPrompt messages kept conversationText. split; [|split].
  - unfold constructUserMessage. rewrite surviving_strings. reflexivity.
  - apply joined_rendered_starts_with_role.
  - intros msg Hin. unfold kept. rewrite filter_In. unfold has_string_or_array_content.
    destruct (MessageParam.content msg); split; intros H;
      try tauto; try discriminate; try congruence.
    destruct H as [_ H]; discriminate.
Qed.

Lemma constructUserMessage_flattening_witness :
  constructUserMessage "S" Sample.conversation
  = "S" ++ newline ++ newline ++ "user: Hi" ++ newline ++ newline
    ++ "assistant: a" ++ newline ++ "b".
Proof.
  destruct (constructUserMessage_flattening "S" Sample.conversation) as [H _].
  rewrite H. reflexivity.
Defined.

(** C1, as the specification states it, fails: a message whose only part is
    an image reduces to zero text parts and is still represented, as
    "user: " with nothing after it. *)
Lemma constructUserMessage_keeps_image_only_message :
  reduces_to_zero_text_parts Sample.image_only = true
  /\ constructUserMessage "S" [Sample.image_only] = "S" ++ newline ++ newline ++ "user: "
  /\ constructUserMessage "S" [Sample.image_only]
     <> constructUserMessage_as_specified "S" [Sample.image_only].
Proof. repeat split. discriminate. Qed.

(** ** Worlds and traces *)

Lemma world_eq : forall c1 t1 c2 t2,
  c1 = c2 -> t1 = t2 -> {| calls := c1; trace := t1 |} = {| calls := c2; trace := t2 |}.
Proof. intros; subst; reflexivity. Qed.

Lemma yielded_attempts : forall w request retries,
  yielded (after_attempts w request retries) = yielded w.
Proof.
  intros w request retries. unfold yielded, after_attempts. cbn [trace].
  rewrite flat_map_app.
  assert (E : forall r, flat_map (fun e => match e with Yield c => [c] | _ => [] end)
                          (attempts request r) = []).
  { induction r as [|r IH]; [reflexivity | exact IH]. }
  rewrite E. apply app_nil_r.
Qed.

Lemma requests_attempts : forall w request retries,
  requests (after_attempts w request retries) = (requests w ++ repeat request (S retries))%list.
Proof.
  intros w request retries. unfold requests, after_attempts. cbn [trace].
  rewrite flat_map_app. f_equal.
  induction retries as [|r IH]; [reflexivity|].
  cbn [attempts flat_map app]. rewrite IH. reflexivity.
Qed.

Lemma sleeps_attempts : forall w request retries,
  sleeps (after_attempts w request retries) = (sleeps w ++ repeat retryDelay retries)%list.
Proof.
  intros w request retries. unfold sleeps, after_attempts. cbn [trace].
  rewrite flat_map_app. f_equal.
  induction retries as [|r IH]; [reflexivity|].
  cbn [attempts flat_map app repeat]. rewrite IH. reflexivity.
Qed.

Lemma yielded_emit_sleep : forall w ms,
  yielded {| calls := calls w; trace := trace w ++ [Sleep ms] |} = yielded w.
Proof.
  intros. unfold yielded. cbn [trace]. rewrite flat_map_app. apply app_nil_r.
Qed.

(** ** The transport *)

Section Transport.

Variable server : Server.

Lemma status_is_rate_limited : forall T (error : AxiosError.t),
  status_is (option_map AxiosError.status (AxiosError.response error)) 429
  = rate_limited (@RejectedAxios T error).
Proof. intros T [[r|] m]; reflexivity. Qed.

(** One attempt: either it is a rate limit that may still be retried, and
    the call goes on after the wait, or it settles the call. *)
Lemma makeApiCall_from_step : forall fuel this k method endpoint data retryCount w,
  makeApiCall_from server (S fuel) this k method endpoint data retryCount w =
    if rate_limited (server k (calls w)) && (retryCount <? maxRetries)%Z then
      makeApiCall_from server fuel this k method endpoint data (retryCount + 1)%Z
        {| calls := S (calls w);
           trace := trace w ++ [Request (request_of this method endpoint data);
                                Sleep retryDelay] |}
    else
      (settle (server k (calls w)),
       {| calls := S (calls w);
          trace := trace w ++ [Request (request_of this method endpoint data)] |}).
Proof.
  intros fuel this k method endpoint data retryCount [c t].
  cbn [makeApiCall_from]. unfold bind at 1. unfold axios at 1. cbn [calls trace].
  fold (request_of this method endpoint data).
  destruct (server k c) as [d|e|v]; cbn [rate_limited settle andb]; try reflexivity.
  rewrite (status_is_rate_limited (response_of k)). cbn [rate_limited].
  destruct (match AxiosError.response e with
            | Some r => (AxiosError.status r =? 429)%Z | None => false end);
    cbn [andb]; [|reflexivity].
  destruct (retryCount <? maxRetries)%Z; [|reflexivity].
  unfold bind, sleep, emit. cbn [calls trace].
  rewrite <- app_assoc. reflexivity.
Qed.

(** The whole call in closed form. *)
Lemma makeApiCall_eq : forall this k method endpoint data w,
  makeApiCall server this k method endpoint data w =
    (settle (server k (calls w + retries_taken server k (calls w))),
     after_attempts w (request_of this method endpoint data)
       (retries_taken server k (calls w))).
Proof.
  intros this k method endpoint data [c t].
  unfold makeApiCall, retries_taken, after_attempts.
  change (S (Z.to_nat maxRetries)) with 3.
  rewrite makeApiCall_from_step. cbn [calls trace].
  change (0 <? maxRetries)%Z with true. rewrite andb_true_r.
  destruct (rate_limited (server k c)).
  2:{ rewrite Nat.add_0_r. f_equal. apply world_eq; [lia|reflexivity]. }
  rewrite makeApiCall_from_step. cbn [calls trace].
  change (0 + 1 <? maxRetries)%Z with true. rewrite andb_true_r.
  destruct (rate_limited (server k (S c))).
  2:{ replace (c + 1) with (S c) by lia. f_equal.
      apply world_eq; [lia|]. rewrite <- app_assoc. reflexivity. }
  rewrite makeApiCall_from_step. cbn [calls trace].
  change (0 + 1 + 1 <? maxRetries)%Z with false. rewrite andb_false_r.
  replace (c + 2) with (S (S c)) by lia. f_equal.
  apply world_eq; [lia|]. rewrite <- !app_assoc. reflexivity.
Qed.

Lemma retries_taken_unique : forall k n retries,
  retries <= 2 ->
  (forall i, i < retries -> rate_limited (server k (n + i)) = true) ->
  retries = 2 \/ rate_limited (server k (n + retries)) = false ->
  retries_taken server k n = retries.
Proof.
  intros k n retries Hle Hbefore Hlast. unfold retries_taken.
  destruct retries as [|[|[|r]]]; try lia.
  - destruct Hlast as [H|H]; [discriminate|]. rewrite Nat.add_0_r in H. now rewrite H.
  - rewrite <- (Nat.add_0_r n) at 1. rewrite (Hbefore 0) by lia.
    destruct Hlast as [H|H]; [discriminate|].
    replace (S n) with (n + 1) by lia. now rewrite H.
  - rewrite <- (Nat.add_0_r n) at 1. rewrite (Hbefore 0) by lia.
    replace (S n) with (n + 1) by lia. now rewrite (Hbefore 1) by lia.
Qed.

Lemma makeApiCall_not_out_of_fuel : forall this k method endpoint data w,
  fst (makeApiCall server this k method endpoint data w) <> OutOfFuel.
Proof.
  intros. rewrite makeApiCall_eq. cbn [fst].
  destruct (server k _); discriminate.
Qed.

Lemma reported_message_cases : forall error,
  (forall remote, remote_message error = Some remote -> remote <> "" ->
                  reported_message error = remote)
  /\ (remote_message error = None \/ remote_message error = Some "" ->
      reported_message error = AxiosError.message error).
Proof.
  intros error. unfold reported_message, or_string, truthy. split.
  - intros remote -> Hne. destruct (String.eqb_spec remote ""); [contradiction|reflexivity].
  - intros [-> | ->]; reflexivity.
Qed.

(** C4, as amended.  A call is retried only on HTTP 429, after a wait of 60
    seconds each time and at most twice: when the first [retries] attempts
    are rate limited and the next one is not, or is the third, the call
    issues the same request [retries + 1] times with [retries] waits of
    60000 ms in between and ends with that attempt.  A resolved attempt
    gives its data; an axios error gives an error whose message is the
    provider name, " API error: ", and the remote message when that is
    present and not empty, else the transport message; any other rejection
    is passed on. *)
Theorem makeApiCall_retry_policy :
  forall this k method endpoint data w retries,
    let request := request_of this method endpoint data in
    let outcome := fun i => server k (calls w + i) in
    retries <= 2 ->
    (forall i, i < retries -> rate_limited (outcome i) = true) ->
    retries = 2 \/ rate_limited (outcome retries) = false ->
    exists result w',
      makeApiCall server this k method endpoint data w = (result, w')
      /\ trace w' = (trace w ++ attempts request retries)%list
      /\ requests w' = (requests w ++ repeat request (S retries))%list
      /\ sleeps w' = (sleeps w ++ repeat 60000%Z retries)%list
      /\ match outcome retries with
         | Resolved response_data => result = Normal response_data
         | RejectedAxios error =>
             exists text,
               result = Throw (ErrorObject ("OpenAI Assistant API error: " ++ text))
               /\ (forall remote, remote_message error = Some remote -> remote <> "" ->
                                  text = remote)
               /\ (remote_message error = None \/ remote_message error = Some "" ->
                   text = AxiosError.message error)
         | RejectedOther error => result = Throw error
         end.
Proof.
  intros this k method endpoint data w retries request outcome Hle Hbefore Hlast.
  pose proof (retries_taken_unique k (calls w) retries Hle Hbefore Hlast) as E.
  eexists _, _. split; [rewrite makeApiCall_eq; rewrite E; reflexivity|].
  split; [reflexivity|].
  split; [apply requests_attempts|].
  split; [apply sleeps_attempts|].
  unfold outcome. destruct (server k (calls w + retries)) as [d|error|v];
    cbn [settle]; try reflexivity.
  exists (reported_message error). split; [reflexivity|].
  apply reported_message_cases.
Qed.

End Transport.

Lemma makeApiCall_retry_policy_witness :
  exists result w',
    makeApiCall (Sample.limited_then 2 (Sample.service Sample.completing Sample.listing))
      Sample.handler KThread POST "/threads" (Some EmptyObject) initial_world = (result, w')
    /\ sleeps w' = [60000; 60000]%Z
    /\ length (requests w') = 3
    /\ result = Normal Sample.thread.
Proof.
  destruct (makeApiCall_retry_policy
              (Sample.limited_then 2 (Sample.service Sample.completing Sample.listing))
              Sample.handler KThread POST "/threads" (Some EmptyObject) initial_world 2)
    as (result & w' & Hcall & _ & Hreq & Hsleep & Hres).
  - lia.
  - intros [|[|i]] Hi; [reflexivity | reflexivity | lia].
  - left; reflexivity.
  - exists result, w'. repeat split; try assumption.
    rewrite Hreq. reflexivity.
Defined.

(** C4, as the specification states it, fails when the remote error message
    is present but empty: the message then carries the transport text, not
    the remote one. *)
Lemma makeApiCall_empty_remote_message :
  let error := Sample.http_error 500 (Some "") "Request failed with status code 500" in
  let server := Sample.always (fun _ => RejectedAxios error) in
  let result :=
    fst (makeApiCall server Sample.handler KThread POST "/threads" (Some EmptyObject)
           initial_world) in
  remote_message error = Some ""
  /\ result = Throw (ErrorObject
                       "OpenAI Assistant API error: Request failed with status code 500")
  /\ result <> Throw (ErrorObject (api_error_message_as_specified error)).
Proof. repeat split. discriminate. Qed.

(** ** Composition of effects *)

Section Keeping.

Variable P : World -> World -> Prop.
Hypothesis P_refl : forall w, P w w.
Hypothesis P_trans : forall w1 w2 w3, P w1 w2 -> P w2 w3 -> P w1 w3.

Lemma keeps_ret : forall A (a : A), keeps P (ret a).
Proof. intros A a w. apply P_refl. Qed.

Lemma keeps_throw : forall A e, keeps P (@throw A e).
Proof. intros A e w. apply P_refl. Qed.

Lemma keeps_bind : forall A B (m : M A) (f : A -> M B),
  keeps P m -> (forall a, keeps P (f a)) -> keeps P (bind m f).
Proof.
  intros A B m f Hm Hf w. unfold bind. specialize (Hm w).
  destruct (m w) as [[a| |] w1]; cbn [snd] in *; try assumption.
  eapply P_trans; [eassumption | apply Hf].
Qed.

Lemma keeps_try_catch : forall A (body : M A) handler,
  keeps P body -> (forall e, keeps P (handler e)) -> keeps P (try_catch body handler).
Proof.
  intros A body handler Hb Hh w. unfold try_catch. specialize (Hb w).
  destruct (body w) as [[a| |] w1]; cbn [snd] in *; try assumption.
  eapply P_trans; [eassumption | apply Hh].
Qed.

End Keeping.

Lemma terminates_ret : forall A (a : A), terminates (ret a).
Proof. intros A a w. discriminate. Qed.

Lemma terminates_throw : forall A e, terminates (@throw A e).
Proof. intros A e w. discriminate. Qed.

Lemma terminates_emit : forall e, terminates (emit e).
Proof. intros e w. discriminate. Qed.

Lemma terminates_bind : forall A B (m : M A) (f : A -> M B),
  terminates m -> (forall a, terminates (f a)) -> terminates (bind m f).
Proof.
  intros A B m f Hm Hf w. unfold bind. specialize (Hm w).
  destruct (m w) as [[a| |] w1]; cbn [fst] in *;
    [apply Hf | discriminate | contradiction].
Qed.

Lemma terminates_try_catch : forall A (body : M A) handler,
  terminates body -> (forall e, terminates (handler e)) ->
  terminates (try_catch body handler).
Proof.
  intros A body handler Hb Hh w. unfold try_catch. specialize (Hb w).
  destruct (body w) as [[a| |] w1]; cbn [fst] in *;
    [discriminate | apply Hh | contradiction].
Qed.

Lemma same_yield_refl : forall w, same_yield w w.
Proof. reflexivity. Qed.

Lemma same_yield_trans : forall w1 w2 w3,
  same_yield w1 w2 -> same_yield w2 w3 -> same_yield w1 w3.
Proof. unfold same_yield. intros. congruence. Qed.

Lemma stays_justified_refl : forall server w, stays_justified server w w.
Proof. intros. split; [lia | auto]. Qed.

Lemma stays_justified_trans : forall server w1 w2 w3,
  stays_justified server w1 w2 -> stays_justified server w2 w3 ->
  stays_justified server w1 w3.
Proof. intros server w1 w2 w3 [L1 J1] [L2 J2]. split; [lia | auto]. Qed.

Create HintDb keeping.

#[local] Hint Resolve same_yield_refl same_yield_trans
  stays_justified_refl stays_justified_trans : keeping.
#[local] Hint Resolve keeps_ret keeps_throw keeps_bind keeps_try_catch
  terminates_ret terminates_throw terminates_emit terminates_bind terminates_try_catch
  : keeping.

(** ** The protocol walk *)

Lemma settle_Normal : forall T (outcome : AxiosOutcome T) d,
  settle outcome = Normal d -> outcome = Resolved d.
Proof. intros T [d'|e|v] d H; inversion H; reflexivity. Qed.

Lemma requests_slept : forall w, requests (slept w) = requests w.
Proof.
  intros w. unfold requests, slept. cbn [trace]. rewrite flat_map_app. apply app_nil_r.
Qed.

Section Invocation.

Variable server : Server.
Variable this : Handler.t.

Lemma makeApiCall_terminates : forall k method endpoint data,
  terminates (makeApiCall server this k method endpoint data).
Proof. intros k method endpoint data w. apply makeApiCall_not_out_of_fuel. Qed.

Lemma makeApiCall_same_yield : forall k method endpoint data,
  keeps same_yield (makeApiCall server this k method endpoint data).
Proof.
  intros k method endpoint data w. rewrite makeApiCall_eq. apply yielded_attempts.
Qed.

Lemma justified_after_attempts : forall w request retries,
  justified server w ->
  (is_submission request = true ->
   exists n currentRun required_action,
     n < calls w + S retries
     /\ server KRun n = Resolved currentRun
     /\ RunResponse.status currentRun = "requires_action"
     /\ RunResponse.required_action currentRun = Some required_action
     /\ AxiosRequestConfig.data request
        = Some (ToolOutputsBody
                  (toolOutputs (RequiredAction.tool_calls
                                  (RequiredAction.submit_tool_outputs required_action))))) ->
  justified server (after_attempts w request retries).
Proof.
  intros w request retries Hw Hnew r Hin Hsub.
  rewrite requests_attempts in Hin. cbn [after_attempts calls].
  apply in_app_or in Hin as [Hold | Hrep].
  - destruct (Hw r Hold Hsub) as (n & cur & ra & Hn & Hrest).
    exists n, cur, ra. split; [lia | exact Hrest].
  - apply repeat_spec in Hrep. subst r. exact (Hnew Hsub).
Qed.

Lemma makeApiCall_stays_justified : forall k method endpoint data,
  is_submission (request_of this method endpoint data) = false ->
  keeps (stays_justified server) (makeApiCall server this k method endpoint data).
Proof.
  intros k method endpoint data Hdata w. rewrite makeApiCall_eq. cbn [snd].
  split; [cbn; lia|]. intros Hw. apply justified_after_attempts; [assumption|].
  intros H. congruence.
Qed.

Variable thread : ThreadResponse.t.
Variable run : RunResponse.t.

Lemma fetch_run_eq : forall w,
  fetch_run server this thread run w =
    (settle (server KRun (calls w + retries_taken server KRun (calls w))),
     after_attempts (slept w) (request_of this GET (run_endpoint thread run) None)
       (retries_taken server KRun (calls w))).
Proof.
  intros w. unfold fetch_run, bind, sleep, emit. fold (slept w).
  rewrite makeApiCall_eq. reflexivity.
Qed.

(** One poll, case by case. *)
Lemma poll_iteration_eq : forall st w,
  poll_iteration server this thread run st w =
    match fetch_run server this thread run w with
    | (Normal currentRun, w1) =>
        if is_failure_status (RunResponse.status currentRun) then
          (Throw (ErrorObject ("Assistant run " ++ RunResponse.status currentRun ++ ": "
                               ++ errorDetails currentRun)), w1)
        else
          match RunResponse.status currentRun =? "requires_action",
                RunResponse.required_action currentRun with
          | true, Some required_action =>
              match submission server this thread run required_action w1 with
              | (Normal _, w2) => (Normal (polled st currentRun), w2)
              | (Throw e, w2) => (Throw e, w2)
              | (OutOfFuel, w2) => (OutOfFuel, w2)
              end
          | _, _ => (Normal (polled st currentRun), w1)
          end
    | (Throw e, w1) => (Throw e, w1)
    | (OutOfFuel, w1) => (OutOfFuel, w1)
    end.
Proof.
  intros st w. unfold poll_iteration, fetch_run, submission, polled, bind, sleep, emit.
  destruct (makeApiCall server this KRun GET (run_endpoint thread run) None _)
    as [[cur| |] w1]; try reflexivity.
  destruct (is_failure_status (RunResponse.status cur)); [reflexivity|].
  destruct (RunResponse.status cur =? "requires_action");
    destruct (RunResponse.required_action cur) as [ra|]; reflexivity.
Qed.

End Invocation.

Section Polling.

Variable server : Server.
Variable this : Handler.t.
Variable thread : ThreadResponse.t.
Variable run : RunResponse.t.

Lemma justified_slept : forall w, justified server w -> justified server (slept w).
Proof.
  intros w Hw r Hin Hsub. rewrite requests_slept in Hin. exact (Hw r Hin Hsub).
Qed.

Lemma submission_eq : forall required_action w,
  submission server this thread run required_action w =
    (match settle (server KUnknown (calls w + retries_taken server KUnknown (calls w))) with
     | Normal _ => Normal tt
     | Throw e => Throw e
     | OutOfFuel => OutOfFuel
     end,
     after_attempts w
       (request_of this POST (run_endpoint thread run ++ "/submit_tool_outputs")
          (Some (ToolOutputsBody
                   (toolOutputs (RequiredAction.tool_calls
                                   (RequiredAction.submit_tool_outputs required_action))))))
       (retries_taken server KUnknown (calls w))).
Proof.
  intros ra w. unfold submission, bind. rewrite makeApiCall_eq.
  destruct (settle _); reflexivity.
Qed.

Lemma poll_iteration_terminates : forall st,
  terminates (poll_iteration server this thread run st).
Proof.
  intros st w. rewrite poll_iteration_eq, fetch_run_eq.
  destruct (settle _) as [cur|e|] eqn:F; cbn [fst]; try discriminate.
  - destruct (is_failure_status _); [discriminate|].
    destruct (_ =? _); destruct (RunResponse.required_action cur); try discriminate.
    rewrite submission_eq. destruct (settle _) eqn:S; try discriminate.
    destruct (server KUnknown _); discriminate.
  - destruct (server KRun _); discriminate.
Qed.

Lemma poll_iteration_same_yield : forall st,
  keeps same_yield (poll_iteration server this thread run st).
Proof.
  intros st w. rewrite poll_iteration_eq, fetch_run_eq.
  assert (H1 : same_yield w (after_attempts (slept w)
                  (request_of this GET (run_endpoint thread run) None)
                  (retries_taken server KRun (calls w)))).
  { unfold same_yield. rewrite yielded_attempts. apply yielded_emit_sleep. }
  destruct (settle _) as [cur|e|]; cbn [snd]; try exact H1.
  destruct (is_failure_status _); [exact H1|].
  destruct (_ =? _); destruct (RunResponse.required_action cur); try exact H1.
  rewrite submission_eq.
  assert (H2 : forall r q, same_yield w (after_attempts (after_attempts (slept w)
                  (request_of this GET (run_endpoint thread run) None)
                  (retries_taken server KRun (calls w))) q r)).
  { intros r q. unfold same_yield. rewrite yielded_attempts. exact H1. }
  destruct (settle _); apply H2.
Qed.

Lemma poll_iteration_stays_justified : forall st,
  keeps (stays_justified server) (poll_iteration server this thread run st).
Proof.
  intros st w. rewrite poll_iteration_eq, fetch_run_eq.
  set (r := retries_taken server KRun (calls w)).
  set (w1 := after_attempts (slept w) (request_of this GET (run_endpoint thread run) None) r).
  assert (H1 : stays_justified server w w1).
  { split; [cbn; lia|]. intros Hw. apply justified_after_attempts.
    - apply justified_slept, Hw.
    - discriminate. }
  destruct (settle _) as [cur|e|] eqn:F; cbn [snd]; try exact H1.
  apply settle_Normal in F.
  destruct (is_failure_status _); [exact H1|].
  destruct (RunResponse.status cur =? "requires_action") eqn:Q;
    destruct (RunResponse.required_action cur) as [ra|] eqn:A; try exact H1.
  rewrite submission_eq.
  set (r2 := retries_taken server KUnknown (calls w1)).
  set (w2 := after_attempts w1 _ r2).
  assert (H2 : stays_justified server w1 w2).
  { split; [cbn; lia|]. intros Hw1. apply justified_after_attempts; [exact Hw1|].
    intros _. exists (calls w + r), cur, ra.
    split; [cbn; lia|]. split; [exact F|].
    split; [apply String.eqb_eq, Q|]. split; [exact A | reflexivity]. }
  destruct (settle _); cbn [snd];
    (eapply stays_justified_trans; [exact H1 | exact H2]).
Qed.

(** A poll that ends normally leaves the state [polled] from the run it
    fetched: the clock has advanced by one interval and nothing else. *)
Lemma poll_iteration_Normal : forall st w st' w',
  poll_iteration server this thread run st w = (Normal st', w') ->
  exists currentRun w1,
    fetch_run server this thread run w = (Normal currentRun, w1)
    /\ is_failure_status (RunResponse.status currentRun) = false
    /\ st' = polled st currentRun.
Proof.
  intros st w st' w' H. rewrite poll_iteration_eq in H.
  destruct (fetch_run server this thread run w) as [[cur|e|] w1]; try discriminate.
  exists cur, w1. split; [reflexivity|].
  destruct (is_failure_status _); [discriminate|]. split; [reflexivity|].
  destruct (_ =? _); destruct (RunResponse.required_action cur).
  1:{ destruct (submission _ _ _ _ _ _) as [[[]| |] w2]; congruence. }
  all: congruence.
Qed.

Lemma poll_iteration_elapsed : forall st w st' w',
  poll_iteration server this thread run st w = (Normal st', w') ->
  PollState.elapsedTime st' = (PollState.elapsedTime st + pollInterval)%Z.
Proof.
  intros st w st' w' H. apply poll_iteration_Normal in H as (cur & w1 & _ & _ & ->).
  reflexivity.
Qed.

(** *** The loop *)

Lemma poll_loop_same_yield : forall fuel st,
  keeps same_yield (poll_loop server fuel this thread run st).
Proof.
  induction fuel as [|fuel IH]; intros st; cbn [poll_loop];
    destruct (loop_condition st); auto with keeping.
  - intros w; reflexivity.
  - apply (keeps_bind same_yield same_yield_trans); [apply poll_iteration_same_yield | exact IH].
Qed.

Lemma poll_loop_stays_justified : forall fuel st,
  keeps (stays_justified server) (poll_loop server fuel this thread run st).
Proof.
  induction fuel as [|fuel IH]; intros st; cbn [poll_loop];
    destruct (loop_condition st); auto with keeping.
  - intros w; apply stays_justified_refl.
  - apply (keeps_bind _ (stays_justified_trans server));
      [apply poll_iteration_stays_justified | exact IH].
Qed.

(** The loop needs no more fuel than there are intervals left before the
    ceiling. *)
Lemma poll_loop_terminates : forall fuel st,
  (maxWaitTime - PollState.elapsedTime st <= Z.of_nat fuel * pollInterval)%Z ->
  terminates (poll_loop server fuel this thread run st).
Proof.
  induction fuel as [|fuel IH]; intros st Hfuel w; cbn [poll_loop];
    destruct (loop_condition st) eqn:C; try discriminate.
  - apply andb_prop in C as [_ C]. apply Z.ltb_lt in C. lia.
  - unfold bind. pose proof (poll_iteration_terminates st w) as T.
    destruct (poll_iteration server this thread run st w) as [[st'| |] w'] eqn:E;
      cbn [fst] in *; [|discriminate|contradiction].
    apply IH. apply poll_iteration_elapsed in E. rewrite E.
    unfold pollInterval in *. lia.
Qed.

Lemma poll_loop_exit : forall fuel st w st' w',
  poll_loop server fuel this thread run st w = (Normal st', w') ->
  loop_condition st' = false.
Proof.
  induction fuel as [|fuel IH]; intros st w st' w'; cbn [poll_loop];
    destruct (loop_condition st) eqn:C; try discriminate.
  - intros H; inversion H; subst; exact C.
  - unfold bind.
    destruct (poll_iteration server this thread run st w) as [[st1| |] w1];
      try discriminate. apply IH.
  - intros H; inversion H; subst; exact C.
Qed.

(** The rounds of a loop that ends normally. *)
Lemma poll_loop_iterates : forall fuel st w st' w',
  poll_loop server fuel this thread run st w = (Normal st', w') ->
  exists n, iterates server this thread run n (st, w) (st', w').
Proof.
  induction fuel as [|fuel IH]; intros st w st' w'; cbn [poll_loop];
    destruct (loop_condition st) eqn:C; try discriminate.
  - intros H; inversion H; subst. exists 0. constructor.
  - unfold bind.
    destruct (poll_iteration server this thread run st w) as [[st1| |] w1] eqn:E;
      try discriminate.
    intros H. apply IH in H as [n H]. exists (S n). econstructor; eassumption.
  - intros H; inversion H; subst. exists 0. constructor.
Qed.

Lemma iterates_poll_loop : forall n x y,
  iterates server this thread run n x y ->
  forall fuel,
    poll_loop server (n + fuel) this thread run (fst x) (snd x)
    = poll_loop server fuel this thread run (fst y) (snd y).
Proof.
  induction 1 as [x | n st w st' w' y C E _ IH]; intros fuel; [reflexivity|].
  cbn [fst snd Nat.add poll_loop] in *. rewrite C. unfold bind at 1. rewrite E.
  apply IH.
Qed.

(** The clock counts the rounds, and never passes the ceiling. *)
Lemma iterates_elapsed : forall n x y,
  iterates server this thread run n x y ->
  PollState.elapsedTime (fst y)
  = (PollState.elapsedTime (fst x) + Z.of_nat n * pollInterval)%Z.
Proof.
  induction 1 as [x | n st w st' w' y C E _ IH]; [cbn; lia|].
  cbn [fst] in *. rewrite IH. apply poll_iteration_elapsed in E. rewrite E. lia.
Qed.

Lemma iterates_rounds_bound : forall n st w st' w',
  iterates server this thread run n (st, w) (st', w') ->
  PollState.elapsedTime st = 0%Z ->
  loop_condition st' = true ->
  n < poll_fuel.
Proof.
  intros n st w st' w' H H0 C. apply iterates_elapsed in H. cbn [fst] in H.
  apply andb_prop in C as [_ C]. apply Z.ltb_lt in C.
  rewrite H, H0 in C. unfold poll_fuel, maxWaitTime, pollInterval in *.
  change (Z.to_nat (300000 / 1000)) with 300. lia.
Qed.

End Polling.

(** ** The invocation as a whole *)

Lemma find_filter : forall A (p : A -> bool) l,
  match find p l with
  | Some x => exists rest, filter p l = x :: rest
  | None => filter p l = []
  end.
Proof.
  induction l as [|a l IH]; [reflexivity|]. cbn [find filter].
  destruct (p a); [eexists; reflexivity | exact IH].
Qed.

Lemma text_values_filter : forall content,
  map text_value (filter has_text content) = text_values content.
Proof.
  induction content as [|[type text] content IH]; [reflexivity|].
  cbn [filter text_values flat_map]. unfold has_text at 1.
  cbn [ContentPart.type ContentPart.text].
  destruct (type =? "text"); destruct text as [t|];
    cbn [andb map app text_value ContentPart.text]; rewrite ?IH; reflexivity.
Qed.

Section Stream.

Variable server : Server.
Variable this : Handler.t.

Lemma createThreadAndRun_terminates : forall systemPrompt messages,
  terminates (createThreadAndRun server this systemPrompt messages).
Proof.
  intros. unfold createThreadAndRun.
  repeat (apply terminates_bind; [apply makeApiCall_terminates | intros ?]).
  apply terminates_ret.
Qed.

Lemma createThreadAndRun_same_yield : forall systemPrompt messages,
  keeps same_yield (createThreadAndRun server this systemPrompt messages).
Proof.
  intros. unfold createThreadAndRun.
  repeat (apply (keeps_bind same_yield same_yield_trans);
          [apply makeApiCall_same_yield | intros ?]).
  apply keeps_ret, same_yield_refl.
Qed.

Lemma createThreadAndRun_stays_justified : forall systemPrompt messages,
  keeps (stays_justified server) (createThreadAndRun server this systemPrompt messages).
Proof.
  intros. unfold createThreadAndRun.
  repeat (apply (keeps_bind _ (stays_justified_trans server));
          [apply makeApiCall_stays_justified; reflexivity | intros ?]).
  apply keeps_ret, stays_justified_refl.
Qed.

(** Step 5 and the yields, case by case. *)
Lemma retrieveResponse_eq : forall thread w,
  retrieveResponse server this thread w =
    match makeApiCall server this KMessagesList GET
            ("/threads/" ++ ThreadResponse.id thread ++ "/messages") None w with
    | (Normal messagesResponse, w3) =>
        match assistantMessages messagesResponse with
        | [] => (Throw (ErrorObject "No assistant response found"), w3)
        | latestMessage :: _ =>
            (Normal tt,
             {| calls := calls w3;
                trace := trace w3
                         ++ [Yield (ApiStreamChunk.text (textContent latestMessage));
                             Yield (ApiStreamChunk.usage 0 0)] |})
        end
    | (Throw e, w3) => (Throw e, w3)
    | (OutOfFuel, w3) => (OutOfFuel, w3)
    end.
Proof.
  intros thread w. unfold retrieveResponse. unfold bind at 1.
  destruct (makeApiCall _ _ _ _ _ _ w) as [[resp| |] w3]; try reflexivity.
  destruct (assistantMessages resp); [reflexivity|].
  unfold bind, yield, emit. cbn [calls trace]. rewrite <- app_assoc. reflexivity.
Qed.

Lemma createMessage_eq : forall systemPrompt messages w,
  truthy (Handler.assistantId this) = true ->
  createMessage server this systemPrompt messages w =
    match createThreadAndRun server this systemPrompt messages w with
    | (Normal (thread, run), w1) =>
        match poll_loop server poll_fuel this thread run (initial_poll_state run) w1 with
        | (Normal st, w2) =>
            match afterPolling server this thread st w2 with
            | (Throw e, w3) => rethrow_wrapped this e w3
            | r => r
            end
        | (Throw e, w2) => rethrow_wrapped this e w2
        | (OutOfFuel, w2) => (OutOfFuel, w2)
        end
    | (Throw e, w1) => rethrow_wrapped this e w1
    | (OutOfFuel, w1) => (OutOfFuel, w1)
    end.
Proof.
  intros systemPrompt messages w Hid. unfold createMessage. rewrite Hid. cbn [negb].
  unfold try_catch, createMessage_body. unfold bind at 1.
  destruct (createThreadAndRun _ _ _ _ w) as [[[thread run]| |] w1]; try reflexivity.
  unfold bind.
  destruct (poll_loop _ _ _ _ _ _ w1) as [[st| |] w2]; reflexivity.
Qed.

Lemma poll_fuel_enough : forall run,
  (maxWaitTime - PollState.elapsedTime (initial_poll_state run)
   <= Z.of_nat poll_fuel * pollInterval)%Z.
Proof. intros run. vm_compute. discriminate. Qed.

Lemma afterPolling_terminates : forall thread st,
  terminates (afterPolling server this thread st).
Proof.
  intros thread st w. unfold afterPolling.
  destruct (negb _); [discriminate|]. rewrite retrieveResponse_eq.
  pose proof (makeApiCall_terminates server this KMessagesList GET
                ("/threads/" ++ ThreadResponse.id thread ++ "/messages") None w) as T.
  destruct (makeApiCall _ _ _ _ _ _ w) as [[resp| |] w3]; cbn [fst] in *;
    [|discriminate|contradiction].
  destruct (assistantMessages resp); discriminate.
Qed.

Lemma rethrow_wrapped_throws : forall e w,
  exists e', rethrow_wrapped this e w = (Throw e', w).
Proof. intros [m|v] w; eexists; reflexivity. Qed.

(** Enough fuel: an invocation always returns or throws. *)
Lemma createMessage_terminates : forall systemPrompt messages,
  terminates (createMessage server this systemPrompt messages).
Proof.
  intros systemPrompt messages w.
  destruct (truthy (Handler.assistantId this)) eqn:Hid.
  2:{ unfold createMessage. rewrite Hid. discriminate. }
  rewrite createMessage_eq by assumption.
  pose proof (createThreadAndRun_terminates systemPrompt messages w) as T1.
  destruct (createThreadAndRun _ _ _ _ w) as [[[thread run]|e|] w1]; cbn [fst] in T1;
    [| destruct (rethrow_wrapped_throws e w1) as [e' ->]; discriminate | contradiction].
  pose proof (poll_loop_terminates server this thread run poll_fuel _
                (poll_fuel_enough run) w1) as T2.
  destruct (poll_loop _ _ _ _ _ _ w1) as [[st|e|] w2]; cbn [fst] in T2;
    [| destruct (rethrow_wrapped_throws e w2) as [e' ->]; discriminate | contradiction].
  pose proof (afterPolling_terminates thread st w2) as T3.
  destruct (afterPolling _ _ _ _ w2) as [[[]|e|] w3]; cbn [fst] in T3;
    [discriminate | destruct (rethrow_wrapped_throws e w3) as [e' ->]; discriminate
     | contradiction].
Qed.

(** What the part after the loop yields: both chunks when it returns,
    nothing when it throws. *)
Lemma afterPolling_yields : forall thread st w result w',
  afterPolling server this thread st w = (result, w') ->
  (exists latestMessage,
      result = Normal tt
      /\ yielded w' = (yielded w ++ [ApiStreamChunk.text (textContent latestMessage);
                                     ApiStreamChunk.usage 0 0])%list)
  \/ ((exists e, result = Throw e) /\ yielded w' = yielded w).
Proof.
  intros thread st w result w' H. unfold afterPolling in H.
  destruct (negb _).
  { inversion H; subst. right. split; [eexists|]; reflexivity. }
  rewrite retrieveResponse_eq in H.
  pose proof (makeApiCall_terminates server this KMessagesList GET
                ("/threads/" ++ ThreadResponse.id thread ++ "/messages") None w) as T.
  pose proof (makeApiCall_same_yield server this KMessagesList GET
                ("/threads/" ++ ThreadResponse.id thread ++ "/messages") None w) as Y.
  destruct (makeApiCall _ _ _ _ _ _ w) as [[resp|e|] w3]; cbn [fst snd] in *;
    [| inversion H; subst; right; split; [eexists; reflexivity | exact Y]
     | contradiction].
  destruct (assistantMessages resp) as [|latest older].
  - inversion H; subst. right. split; [eexists; reflexivity | exact Y].
  - inversion H; subst. left. exists latest. split; [reflexivity|].
    unfold same_yield in Y. unfold yielded in *. cbn [trace].
    rewrite flat_map_app, Y. reflexivity.
Qed.

(** All or nothing: an invocation that returns has yielded the text and the
    usage chunk, one that throws has yielded nothing. *)
Lemma createMessage_yields : forall systemPrompt messages w result w',
  createMessage server this systemPrompt messages w = (result, w') ->
  (exists text,
      result = Normal tt
      /\ yielded w' = (yielded w ++ [ApiStreamChunk.text text;
                                     ApiStreamChunk.usage 0 0])%list)
  \/ ((exists e, result = Throw e) /\ yielded w' = yielded w).
Proof.
  intros systemPrompt messages w result w' H.
  destruct (truthy (Handler.assistantId this)) eqn:Hid.
  2:{ unfold createMessage in H. rewrite Hid in H. inversion H; subst.
      right. split; [eexists|]; reflexivity. }
  pose proof (createMessage_terminates systemPrompt messages w) as T.
  rewrite H in T. cbn [fst] in T.
  rewrite createMessage_eq in H by assumption.
  pose proof (createThreadAndRun_same_yield systemPrompt messages w) as Y1.
  destruct (createThreadAndRun _ _ _ _ w) as [[[thread run]|e|] w1]; cbn [snd] in Y1.
  - pose proof (poll_loop_same_yield server this thread run poll_fuel
                  (initial_poll_state run) w1) as Y2.
    destruct (poll_loop _ _ _ _ _ _ w1) as [[st|e|] w2]; cbn [snd] in Y2.
    + destruct (afterPolling server this thread st w2) as [r3 w3] eqn:A.
      apply afterPolling_yields in A.
      destruct A as [(latest & -> & Y3) | ((e & ->) & Y3)].
      * inversion H; subst. left. exists (textContent latest). split; [reflexivity|].
        rewrite Y3. unfold same_yield in *. congruence.
      * right. destruct (rethrow_wrapped_throws e w3) as [e' E]. rewrite E in H.
        inversion H; subst. split; [eexists; reflexivity|].
        unfold same_yield in *. congruence.
    + right. destruct (rethrow_wrapped_throws e w2) as [e' E]. rewrite E in H.
      inversion H; subst. split; [eexists; reflexivity|].
      unfold same_yield in *. congruence.
    + inversion H; subst. contradiction.
  - right. destruct (rethrow_wrapped_throws e w1) as [e' E]. rewrite E in H.
    inversion H; subst. split; [eexists; reflexivity | exact Y1].
  - inversion H; subst. contradiction.
Qed.

End Stream.

(** ** Configuration *)

(** C3.  When the assistant identifier is unset or empty, the handler holds
    the empty identifier and an invocation throws "OpenAI Assistant ID is
    required" at once: the world is left as it was, so no request has been
    issued, whatever the service, the prompt and the messages are. *)
Theorem createMessage_requires_assistant_id :
  forall DEFAULT_HEADERS apiRequestTimeout server options systemPrompt messages w,
    ApiHandlerOptions.openAiAssistantId options = None
    \/ ApiHandlerOptions.openAiAssistantId options = Some "" ->
    let this := constructor DEFAULT_HEADERS apiRequestTimeout options in
    Handler.assistantId this = ""
    /\ createMessage server this systemPrompt messages w
       = (Throw (ErrorObject "OpenAI Assistant ID is required"), w).
Proof.
  intros DH T server options systemPrompt messages w Hid this.
  assert (E : Handler.assistantId this = "").
  { unfold this, constructor. cbn [Handler.assistantId].
    destruct Hid as [-> | ->]; reflexivity. }
  split; [exact E|]. unfold createMessage. rewrite E. reflexivity.
Qed.

Lemma createMessage_requires_assistant_id_witness :
  let options :=
    {| ApiHandlerOptions.openAiAssistantBaseUrl := None;
       ApiHandlerOptions.openAiAssistantApiKey := Some "sk-test";
       ApiHandlerOptions.openAiAssistantId := None |} in
  createMessage (Sample.service Sample.completing Sample.listing)
    (constructor [] 600000 options) "S" Sample.conversation initial_world
  = (Throw (ErrorObject "OpenAI Assistant ID is required"), initial_world).
Proof.
  intros options.
  apply (createMessage_requires_assistant_id [] 600000
           (Sample.service Sample.completing Sample.listing) options "S"
           Sample.conversation initial_world).
  left; reflexivity.
Defined.

(** ** Completed runs *)

(** C2.  When the run is created, the poll loop ends with status
    "completed", and the listing of the thread's messages is received with
    [latestMessage] as its first assistant message, the invocation returns
    after yielding exactly two chunks: the text chunk made of the values of
    the text parts of [latestMessage] joined by newlines, then the usage
    chunk with both token counts 0. *)
Theorem createMessage_completed_run :
  forall server this systemPrompt messages w thread run w1 st w2
         messagesResponse w3 latestMessage,
    truthy (Handler.assistantId this) = true ->
    createThreadAndRun server this systemPrompt messages w = (Normal (thread, run), w1) ->
    poll_loop server poll_fuel this thread run (initial_poll_state run) w1
      = (Normal st, w2) ->
    PollState.runStatus st = "completed" ->
    makeApiCall server this KMessagesList GET
      ("/threads/" ++ ThreadResponse.id thread ++ "/messages") None w2
      = (Normal messagesResponse, w3) ->
    find (fun msg => role_eqb (ThreadMessage.role msg) assistant)
         (MessagesListResponse.data messagesResponse) = Some latestMessage ->
    let text := join newline (text_values (ThreadMessage.content latestMessage)) in
    exists w4,
      createMessage server this systemPrompt messages w = (Normal tt, w4)
      /\ trace w4 = (trace w3 ++ [Yield (ApiStreamChunk.text text);
                                  Yield (ApiStreamChunk.usage 0 0)])%list
      /\ yielded w4 = (yielded w ++ [ApiStreamChunk.text text;
                                     ApiStreamChunk.usage 0 0])%list.
Proof.
  intros server this systemPrompt messages w thread run w1 st w2 resp w3 latest
         Hid Hsetup Hpoll Hdone Hlist Hfind text.
  pose proof (find_filter _ (fun msg => role_eqb (ThreadMessage.role msg) assistant)
                (MessagesListResponse.data resp)) as F.
  rewrite Hfind in F. destruct F as [older F].
  assert (C : createMessage server this systemPrompt messages w
              = (Normal tt,
                 {| calls := calls w3;
                    trace := trace w3 ++ [Yield (ApiStreamChunk.text text);
                                          Yield (ApiStreamChunk.usage 0 0)] |})).
  { rewrite createMessage_eq by assumption. rewrite Hsetup, Hpoll.
    unfold afterPolling. rewrite Hdone. cbn [String.eqb Ascii.eqb Bool.eqb negb].
    rewrite retrieveResponse_eq, Hlist. unfold assistantMessages. rewrite F.
    unfold textContent. rewrite text_values_filter. reflexivity. }
  eexists. split; [exact C|]. split; [reflexivity|].
  unfold yielded at 1. cbn [trace]. rewrite flat_map_app. cbn [flat_map app].
  change (flat_map _ (trace w3)) with (yielded w3). f_equal.
  pose proof (makeApiCall_same_yield server this KMessagesList GET
                ("/threads/" ++ ThreadResponse.id thread ++ "/messages") None w2) as Y3.
  rewrite Hlist in Y3. cbn [snd] in Y3.
  pose proof (poll_loop_same_yield server this thread run poll_fuel
                (initial_poll_state run) w1) as Y2.
  rewrite Hpoll in Y2. cbn [snd] in Y2.
  pose proof (createThreadAndRun_same_yield server this systemPrompt messages w) as Y1.
  rewrite Hsetup in Y1. cbn [snd] in Y1.
  unfold same_yield in *. congruence.
Qed.

Lemma createMessage_completed_run_witness :
  exists w4,
    createMessage (Sample.service Sample.completing Sample.listing) Sample.handler
      "S" Sample.conversation initial_world = (Normal tt, w4)
    /\ yielded w4 = [ApiStreamChunk.text ("Hello" ++ newline ++ "world");
                     ApiStreamChunk.usage 0 0].
Proof.
  edestruct (createMessage_completed_run
               (Sample.service Sample.completing Sample.listing) Sample.handler
               "S" Sample.conversation initial_world)
    as (w4 & Hc & _ & Hy).
  - reflexivity.
  - vm_compute. reflexivity.
  - vm_compute. reflexivity.
  - reflexivity.
  - vm_compute. reflexivity.
  - reflexivity.
  - exists w4. split; [exact Hc | exact Hy].
Defined.

(** ** Runs that do not complete *)

Section Rounds.

Variable server : Server.
Variable this : Handler.t.
Variable thread : ThreadResponse.t.
Variable run : RunResponse.t.

Lemma poll_waits_attempts : forall w request retries,
  poll_waits (after_attempts w request retries) = poll_waits w.
Proof.
  intros w request retries. unfold poll_waits.
  rewrite sleeps_attempts, count_occ_app.
  assert (E : count_occ Z.eq_dec (repeat retryDelay retries) pollInterval = 0).
  { induction retries as [|r IH]; [reflexivity|]. cbn [repeat count_occ].
    destruct (Z.eq_dec retryDelay pollInterval) as [D|_]; [discriminate D | exact IH]. }
  rewrite E. lia.
Qed.

Lemma poll_waits_slept : forall w, poll_waits (slept w) = S (poll_waits w).
Proof.
  intros w. unfold poll_waits, sleeps, slept. cbn [trace].
  rewrite flat_map_app, count_occ_app. cbn. lia.
Qed.

(** Every poll waits one interval, once, whatever its outcome. *)
Lemma poll_iteration_waits : forall st w,
  poll_waits (snd (poll_iteration server this thread run st w)) = S (poll_waits w).
Proof.
  intros st w. rewrite poll_iteration_eq, fetch_run_eq.
  assert (H1 : forall r q, poll_waits (after_attempts (slept w) q r) = S (poll_waits w))
    by (intros; rewrite poll_waits_attempts; apply poll_waits_slept).
  destruct (settle _) as [cur|e|]; cbn [snd]; try apply H1.
  destruct (is_failure_status _); [apply H1|].
  destruct (_ =? _); destruct (RunResponse.required_action cur); try apply H1.
  rewrite submission_eq.
  destruct (settle _); cbn [snd]; rewrite poll_waits_attempts; apply H1.
Qed.

Lemma iterates_waits : forall n x y,
  iterates server this thread run n x y ->
  poll_waits (snd y) = poll_waits (snd x) + n.
Proof.
  induction 1 as [x | n st w st' w' y C E _ IH]; [lia|].
  cbn [snd] in *. rewrite IH.
  pose proof (poll_iteration_waits st w) as W. rewrite E in W. cbn [snd] in W. lia.
Qed.

Lemma iterates_ceiling : forall n x y,
  iterates server this thread run n x y ->
  forall k, PollState.elapsedTime (fst x) = (k * pollInterval)%Z ->
            (0 <= k <= 300)%Z ->
            (PollState.elapsedTime (fst y) <= maxWaitTime)%Z.
Proof.
  induction 1 as [x | n st w st' w' y C E _ IH]; intros k Hk Hrange.
  - rewrite Hk. unfold pollInterval, maxWaitTime. lia.
  - cbn [fst] in *. apply andb_prop in C as [_ C]. apply Z.ltb_lt in C.
    apply poll_iteration_elapsed in E.
    apply (IH (k + 1)%Z); [rewrite E, Hk; lia|].
    rewrite Hk in C. unfold pollInterval, maxWaitTime in C. lia.
Qed.

(** A loop that ends normally without "completed" has gone round exactly
    300 times and stands at the ceiling. *)
Lemma poll_loop_exhausted : forall w st' w',
  poll_loop server poll_fuel this thread run (initial_poll_state run) w
    = (Normal st', w') ->
  PollState.runStatus st' <> "completed" ->
  PollState.elapsedTime st' = maxWaitTime
  /\ iterates server this thread run 300 (initial_poll_state run, w) (st', w').
Proof.
  intros w st' w' Hpoll Hstatus.
  pose proof (poll_loop_exit _ _ _ _ _ _ _ _ _ Hpoll) as X.
  destruct (poll_loop_iterates _ _ _ _ _ _ _ _ _ Hpoll) as [n I].
  pose proof (iterates_elapsed _ _ _ _ _ _ _ I) as E.
  pose proof (iterates_ceiling _ _ _ I 0%Z eq_refl ltac:(lia)) as U.
  cbn [fst initial_poll_state PollState.elapsedTime] in E, U.
  unfold loop_condition in X. apply String.eqb_neq in Hstatus. rewrite Hstatus in X.
  cbn [negb andb] in X. apply Z.ltb_ge in X.
  assert (En : n = 300) by (unfold pollInterval, maxWaitTime in *; lia).
  subst n. split; [lia | exact I].
Qed.

End Rounds.

Lemma retries_taken_rate_limited : forall server k n i,
  i < retries_taken server k n -> rate_limited (server k (n + i)) = true.
Proof.
  intros server k n i. unfold retries_taken.
  destruct (rate_limited (server k n)) eqn:R0; [|lia].
  destruct (rate_limited (server k (S n))) eqn:R1; intros Hi.
  - destruct i as [|[|i]]; [now rewrite Nat.add_0_r | | lia].
    now replace (n + 1) with (S n) by lia.
  - destruct i as [|i]; [now rewrite Nat.add_0_r | lia].
Qed.

(** The three calls that set the run up, when they all succeed. *)
Lemma createThreadAndRun_Normal :
  forall server this systemPrompt messages w thread run w1,
    createThreadAndRun server this systemPrompt messages w = (Normal (thread, run), w1) ->
    let a := retries_taken server KThread (calls w) in
    let b := retries_taken server KMessage (calls w + S a) in
    let c := retries_taken server KRun (calls w + S a + S b) in
    server KThread (calls w + a) = Resolved thread
    /\ server KRun (calls w + S a + S b + c) = Resolved run
    /\ w1 = after_attempts
              (after_attempts
                 (after_attempts w (request_of this POST "/threads" (Some EmptyObject)) a)
                 (request_of this POST
                    ("/threads/" ++ ThreadResponse.id thread ++ "/messages")
                    (Some (MessageBody "user"
                             (constructUserMessage systemPrompt messages)))) b)
              (request_of this POST
                 ("/threads/" ++ ThreadResponse.id thread ++ "/runs")
                 (Some (RunBody (Handler.assistantId this)))) c.
Proof.
  intros server this systemPrompt messages w thread run w1 H a b c.
  unfold createThreadAndRun in H. unfold bind at 1 in H.
  rewrite makeApiCall_eq in H. fold a in H.
  destruct (settle (server KThread (calls w + a))) as [thread'| |] eqn:E1;
    try discriminate.
  apply settle_Normal in E1.
  unfold bind at 1 in H. rewrite makeApiCall_eq in H.
  cbn [after_attempts calls] in H. fold b in H.
  destruct (settle (server KMessage (calls w + S a + b))) as [message| |] eqn:E2;
    try discriminate.
  unfold bind at 1 in H. rewrite makeApiCall_eq in H.
  cbn [after_attempts calls] in H. fold c in H.
  destruct (settle (server KRun (calls w + S a + S b + c))) as [run'| |] eqn:E3;
    try discriminate.
  apply settle_Normal in E3.
  unfold ret in H. inversion H; subst thread' run'.
  split; [exact E1|]. split; [exact E3|]. reflexivity.
Qed.

(** The status a loop that ends normally stands at is the one it started
    with or that of a run the service answered a fetch with. *)
Lemma poll_loop_status_answered : forall server this thread run fuel st w st' w',
  poll_loop server fuel this thread run st w = (Normal st', w') ->
  st' = st
  \/ exists n currentRun,
       server KRun n = Resolved currentRun
       /\ PollState.runStatus st' = RunResponse.status currentRun.
Proof.
  intros server this thread run.
  induction fuel as [|fuel IH]; intros st w st' w'; cbn [poll_loop];
    destruct (loop_condition st); try discriminate;
    try (intros H; inversion H; left; reflexivity).
  unfold bind.
  destruct (poll_iteration server this thread run st w) as [[st1| |] w1] eqn:E;
    try discriminate.
  intros H. right. apply IH in H as [-> | H]; [|exact H].
  apply poll_iteration_Normal in E as (cur & w0 & F & _ & ->).
  rewrite fetch_run_eq in F. apply (f_equal fst) in F. cbn [fst] in F.
  apply settle_Normal in F. eexists _, cur. split; [exact F | reflexivity].
Qed.

Lemma settle_Throw : forall T (outcome : AxiosOutcome T) e,
  settle outcome = Throw e ->
  (exists error,
      outcome = RejectedAxios error
      /\ e = ErrorObject ("OpenAI Assistant API error: " ++ reported_message error))
  \/ outcome = RejectedOther e.
Proof.
  intros T [d|error|v] e H; inversion H; [left; eexists; split; reflexivity | right; reflexivity].
Qed.

(** What a poll throws. *)
Lemma poll_iteration_throws : forall server this thread run st w e w',
  poll_iteration server this thread run st w = (Throw e, w') ->
  thrown_in_poll server e.
Proof.
  intros server this thread run st w e w' H.
  rewrite poll_iteration_eq, fetch_run_eq in H.
  destruct (settle (server KRun _)) as [cur|e0|] eqn:F; [| |discriminate].
  - apply settle_Normal in F.
    destruct (is_failure_status (RunResponse.status cur)) eqn:S.
    { inversion H; subst. left. eexists _, cur. repeat split; eassumption. }
    destruct (_ =? _); destruct (RunResponse.required_action cur) as [ra|];
      try discriminate.
    rewrite submission_eq in H.
    destruct (settle (server KUnknown _)) as [d|e1|] eqn:U; try discriminate.
    inversion H; subst. right. exists KUnknown. eexists. apply settle_Throw, U.
  - inversion H; subst. right. exists KRun. eexists. apply settle_Throw, F.
Qed.

Lemma poll_loop_throws : forall server this thread run fuel st w e w',
  poll_loop server fuel this thread run st w = (Throw e, w') ->
  thrown_in_poll server e.
Proof.
  intros server this thread run.
  induction fuel as [|fuel IH]; intros st w e w'; cbn [poll_loop];
    destruct (loop_condition st); try discriminate.
  unfold bind.
  destruct (poll_iteration server this thread run st w) as [[st1|e1|] w1] eqn:E;
    [apply IH | | discriminate].
  intros H. inversion H; subst. exact (poll_iteration_throws _ _ _ _ _ _ _ _ E).
Qed.

(** C5, as amended.  Once the run is created, the poll loop ends in one of
    three ways.  When it ends normally without the status "completed", it has
    gone round exactly 300 times, with 300 waits of one interval of 1000 ms,
    the elapsed time stands at the ceiling of 300000 ms, the invocation
    throws the timeout error, and nothing has been yielded.  When it is ended
    by a throw, what is thrown is the error for a run fetched in status
    "failed", "cancelled" or "expired", or the failure of a transport call.
    It never runs on: apart from such a throw, the ceiling is the only way
    out of the loop without "completed". *)
Theorem createMessage_timeout :
  forall server this systemPrompt messages w thread run w1,
    truthy (Handler.assistantId this) = true ->
    createThreadAndRun server this systemPrompt messages w = (Normal (thread, run), w1) ->
    let loop := poll_loop server poll_fuel this thread run (initial_poll_state run) w1 in
    (forall st w2,
        loop = (Normal st, w2) ->
        PollState.runStatus st <> "completed" ->
        PollState.elapsedTime st = maxWaitTime
        /\ iterates server this thread run 300 (initial_poll_state run, w1) (st, w2)
        /\ poll_waits w2 = poll_waits w1 + 300
        /\ createMessage server this systemPrompt messages w
           = (Throw (ErrorObject "OpenAI Assistant error: Assistant run timeout"), w2)
        /\ yielded w2 = yielded w)
    /\ (forall e w2, loop = (Throw e, w2) -> thrown_in_poll server e)
    /\ fst loop <> OutOfFuel
    /\ (never_completed server ->
        (forall e w2, loop <> (Throw e, w2)) ->
        exists w2,
          createMessage server this systemPrompt messages w
          = (Throw (ErrorObject "OpenAI Assistant error: Assistant run timeout"), w2)
          /\ poll_waits w2 = poll_waits w1 + 300
          /\ yielded w2 = yielded w).
Proof.
  intros server this systemPrompt messages w thread run w1 Hid Hsetup loop.
  assert (A : forall st w2,
             loop = (Normal st, w2) ->
             PollState.runStatus st <> "completed" ->
             PollState.elapsedTime st = maxWaitTime
             /\ iterates server this thread run 300 (initial_poll_state run, w1) (st, w2)
             /\ poll_waits w2 = poll_waits w1 + 300
             /\ createMessage server this systemPrompt messages w
                = (Throw (ErrorObject "OpenAI Assistant error: Assistant run timeout"), w2)
             /\ yielded w2 = yielded w);
    [|split; [exact A | split; [|split]]].
  - intros st w2 Hpoll Hstatus.
    destruct (poll_loop_exhausted _ _ _ _ _ _ _ Hpoll Hstatus) as [E I].
    assert (C : createMessage server this systemPrompt messages w
                = (Throw (ErrorObject "OpenAI Assistant error: Assistant run timeout"), w2)).
    { rewrite createMessage_eq by assumption. fold loop. rewrite Hsetup.
      fold loop. rewrite Hpoll.
      unfold afterPolling. apply String.eqb_neq in Hstatus. rewrite Hstatus. reflexivity. }
    repeat split; try assumption.
    + exact (iterates_waits _ _ _ _ _ _ _ I).
    + destruct (createMessage_yields _ _ _ _ _ _ _ C) as [(t & D & _) | (_ & Y)];
        [discriminate | exact Y].
  - intros e w2 H. exact (poll_loop_throws _ _ _ _ _ _ _ _ _ H).
  - apply poll_loop_terminates, poll_fuel_enough.
  - intros Hnever Hnothrow.
    pose proof (poll_loop_terminates server this thread run poll_fuel _
                  (poll_fuel_enough run) w1) as T.
    fold loop in T.
    destruct loop as [[st|e|] w2] eqn:L; cbn [fst] in T;
      [| exfalso; exact (Hnothrow e w2 eq_refl) | contradiction].
    assert (Hstatus : PollState.runStatus st <> "completed").
    { destruct (poll_loop_status_answered _ _ _ _ _ _ _ _ _ L)
        as [-> | (n & cur & Hcur & ->)].
      - cbn [initial_poll_state PollState.runStatus].
        destruct (createThreadAndRun_Normal _ _ _ _ _ _ _ _ Hsetup) as (_ & Hrun & _).
        exact (Hnever _ _ Hrun).
      - exact (Hnever _ _ Hcur). }
    destruct (A st w2 eq_refl Hstatus) as (_ & _ & Hw & Hc & Hy).
    exists w2. repeat split; assumption.
Qed.

Lemma createMessage_timeout_witness :
  exists w2,
    createMessage (Sample.service Sample.never_completing Sample.listing) Sample.handler
      "S" Sample.conversation initial_world
    = (Throw (ErrorObject "OpenAI Assistant error: Assistant run timeout"), w2)
    /\ yielded w2 = [].
Proof.
  edestruct (createMessage_timeout
               (Sample.service Sample.never_completing Sample.listing) Sample.handler
               "S" Sample.conversation initial_world)
    as (H & _ & _).
  - reflexivity.
  - vm_compute. reflexivity.
  - edestruct H as (_ & _ & _ & Hc & Hy).
    + vm_compute. reflexivity.
    + discriminate.
    + eexists. split; [exact Hc | exact Hy].
Defined.

(** C5, as the specification states it, fails: the run of this service never
    shows the status "completed", yet the invocation does not end with the
    timeout error.  The third fetch gives "failed", and the loop is left by
    the run-failure error after two waits, far below the ceiling. *)
Lemma createMessage_failed_run_is_no_timeout :
  let server := Sample.service Sample.failing Sample.listing in
  let outcome :=
    createMessage server Sample.handler "S" Sample.conversation initial_world in
  never_completed server
  /\ fst outcome
     = Throw (ErrorObject
                "OpenAI Assistant error: Assistant run failed: server_error: boom")
  /\ fst outcome <> Throw (ErrorObject "OpenAI Assistant error: Assistant run timeout")
  /\ poll_waits (snd outcome) = 2.
Proof.
  intros server outcome. split; [|split; [|split]].
  - intros n cur H. unfold server, Sample.service in H. inversion H; subst cur.
    destruct n as [|[|[|[|n]]]]; discriminate.
  - vm_compute. reflexivity.
  - vm_compute. discriminate.
  - vm_compute. reflexivity.
Qed.

(** ** Failed runs *)

(** C7.  When a poll of an invocation fetches a run whose status is
    "failed", "cancelled" or "expired", the invocation throws an error whose
    message names the status and carries the code and the message of
    [last_error] when that field is present, and "No error details
    available" when it is not; nothing is yielded. *)
Theorem createMessage_run_failure :
  forall server this systemPrompt messages w thread run w1 n st w2 currentRun w3,
    truthy (Handler.assistantId this) = true ->
    createThreadAndRun server this systemPrompt messages w = (Normal (thread, run), w1) ->
    iterates server this thread run n (initial_poll_state run, w1) (st, w2) ->
    loop_condition st = true ->
    fetch_run server this thread run w2 = (Normal currentRun, w3) ->
    RunResponse.status currentRun = "failed"
    \/ RunResponse.status currentRun = "cancelled"
    \/ RunResponse.status currentRun = "expired" ->
    let details :=
      match RunResponse.last_error currentRun with
      | Some last_error => LastError.code last_error ++ ": " ++ LastError.message last_error
      | None => "No error details available"
      end in
    createMessage server this systemPrompt messages w
    = (Throw (ErrorObject ("OpenAI Assistant error: Assistant run "
                           ++ RunResponse.status currentRun ++ ": " ++ details)), w3)
    /\ yielded w3 = yielded w.
Proof.
  intros server this systemPrompt messages w thread run w1 n st w2 cur w3
         Hid Hsetup Hiter Hcond Hfetch Hstatus details.
  assert (F : is_failure_status (RunResponse.status cur) = true).
  { unfold is_failure_status. destruct Hstatus as [-> | [-> | ->]]; reflexivity. }
  pose proof (iterates_rounds_bound _ _ _ _ _ _ _ _ _ Hiter eq_refl Hcond) as Hn.
  assert (C : createMessage server this systemPrompt messages w
              = (Throw (ErrorObject ("OpenAI Assistant error: Assistant run "
                                     ++ RunResponse.status cur ++ ": " ++ details)), w3)).
  { rewrite createMessage_eq by assumption. rewrite Hsetup.
    replace poll_fuel with (n + S (poll_fuel - S n)) by lia.
    rewrite (iterates_poll_loop _ _ _ _ _ _ _ Hiter). cbn [fst snd poll_loop].
    rewrite Hcond. unfold bind. rewrite poll_iteration_eq, Hfetch, F. reflexivity. }
  split; [exact C|].
  destruct (createMessage_yields _ _ _ _ _ _ _ C) as [(t & D & _) | (_ & Y)];
    [discriminate | exact Y].
Qed.

Lemma createMessage_run_failure_witness :
  exists w3,
    createMessage (Sample.service Sample.failing Sample.listing) Sample.handler
      "S" Sample.conversation initial_world
    = (Throw (ErrorObject
                "OpenAI Assistant error: Assistant run failed: server_error: boom"), w3)
    /\ yielded w3 = [].
Proof.
  edestruct (createMessage_run_failure
               (Sample.service Sample.failing Sample.listing) Sample.handler
               "S" Sample.conversation initial_world) with (n := 1)
    as (Hc & Hy).
  - reflexivity.
  - vm_compute. reflexivity.
  - eapply iterates_step; [reflexivity | vm_compute; reflexivity | apply iterates_refl].
  - reflexivity.
  - vm_compute. reflexivity.
  - left. reflexivity.
  - eexists. split; [exact Hc | exact Hy].
Defined.

(** ** Empty responses *)

Lemma filter_none : forall A (p : A -> bool) l,
  (forall x, In x l -> p x = false) -> filter p l = [].
Proof.
  induction l as [|a l IH]; intros H; [reflexivity|].
  cbn [filter]. rewrite (H a (or_introl eq_refl)). apply IH.
  intros x Hx. apply H. right. exact Hx.
Qed.

(** C8.  An invocation either returns after yielding the text chunk and the
    usage chunk, or throws having yielded nothing.  In particular, when the
    run completes and the listing holds no assistant message, it throws the
    error "No assistant response found" right after the listing is received,
    with nothing yielded. *)
Theorem createMessage_empty_response :
  forall server this systemPrompt messages w result w',
    createMessage server this systemPrompt messages w = (result, w') ->
    ((exists text,
         result = Normal tt
         /\ yielded w' = (yielded w ++ [ApiStreamChunk.text text;
                                        ApiStreamChunk.usage 0 0])%list)
     \/ ((exists e, result = Throw e) /\ yielded w' = yielded w))
    /\ (forall thread run w1 st w2 messagesResponse w3,
          truthy (Handler.assistantId this) = true ->
          createThreadAndRun server this systemPrompt messages w
            = (Normal (thread, run), w1) ->
          poll_loop server poll_fuel this thread run (initial_poll_state run) w1
            = (Normal st, w2) ->
          PollState.runStatus st = "completed" ->
          makeApiCall server this KMessagesList GET
            ("/threads/" ++ ThreadResponse.id thread ++ "/messages") None w2
            = (Normal messagesResponse, w3) ->
          (forall msg, In msg (MessagesListResponse.data messagesResponse) ->
                       ThreadMessage.role msg <> assistant) ->
          result = Throw (ErrorObject "OpenAI Assistant error: No assistant response found")
          /\ w' = w3
          /\ yielded w' = yielded w).
Proof.
  intros server this systemPrompt messages w result w' H.
  pose proof (createMessage_yields _ _ _ _ _ _ _ H) as Y. split; [exact Y|].
  intros thread run w1 st w2 resp w3 Hid Hsetup Hpoll Hdone Hlist Hnone.
  assert (C : createMessage server this systemPrompt messages w
              = (Throw (ErrorObject "OpenAI Assistant error: No assistant response found"),
                 w3)).
  { rewrite createMessage_eq by assumption. rewrite Hsetup, Hpoll.
    unfold afterPolling. rewrite Hdone. cbn [String.eqb Ascii.eqb Bool.eqb negb].
    rewrite retrieveResponse_eq, Hlist. unfold assistantMessages.
    rewrite filter_none; [reflexivity|].
    intros msg Hin. specialize (Hnone msg Hin).
    destruct (ThreadMessage.role msg); [reflexivity | contradiction]. }
  rewrite C in H. inversion H; subst result w'.
  split; [reflexivity|]. split; [reflexivity|].
  destruct Y as [(t & D & _) | (_ & Y)]; [discriminate | exact Y].
Qed.

Lemma createMessage_empty_response_witness :
  exists w3,
    createMessage (Sample.service Sample.completing Sample.listing_without_answer)
      Sample.handler "S" Sample.conversation initial_world
    = (Throw (ErrorObject "OpenAI Assistant error: No assistant response found"), w3)
    /\ yielded w3 = [].
Proof.
  destruct (createMessage (Sample.service Sample.completing Sample.listing_without_answer)
              Sample.handler "S" Sample.conversation initial_world) as [result w'] eqn:E.
  destruct (createMessage_empty_response _ _ _ _ _ _ _ E) as [_ H].
  edestruct H as (Hr & Hw & Hy).
  - reflexivity.
  - vm_compute. reflexivity.
  - vm_compute. reflexivity.
  - reflexivity.
  - vm_compute. reflexivity.
  - intros msg [<- | []]. discriminate.
  - exists w'. rewrite Hr. split; [reflexivity | exact Hy].
Defined.

(** ** Tool calls *)

Lemma toolOutputs_ids : forall toolCalls,
  map ToolOutput.tool_call_id (toolOutputs toolCalls) = map ToolCall.id toolCalls.
Proof.
  intros toolCalls. unfold toolOutputs. rewrite map_map. reflexivity.
Qed.

Lemma toolOutputs_placeholder : forall toolCalls output,
  In output (toolOutputs toolCalls) ->
  ToolOutput.output output = "Tool execution not implemented".
Proof.
  intros toolCalls output H. unfold toolOutputs in H.
  apply in_map_iff in H as (call & <- & _). reflexivity.
Qed.

(** C6.  In a poll that fetches a run in status "requires_action" with its
    [required_action] present, the handler posts to the submit-tool-outputs
    endpoint of the run a body with exactly one output per listed tool call,
    in order, each made of the identifier of the call and the text "Tool
    execution not implemented"; that request, repeated only when it is rate
    limited, is all the poll adds after the fetch.  When the submission is
    accepted the poll ends normally with the elapsed time advanced by one
    interval, not reset, and the loop goes on from there for as long as the
    budget lasts. *)
Theorem requires_action_submits_placeholders :
  forall server this thread run st w currentRun w1 required_action,
    fetch_run server this thread run w = (Normal currentRun, w1) ->
    RunResponse.status currentRun = "requires_action" ->
    RunResponse.required_action currentRun = Some required_action ->
    let toolCalls :=
      RequiredAction.tool_calls (RequiredAction.submit_tool_outputs required_action) in
    let outputs := toolOutputs toolCalls in
    let request :=
      request_of this POST (run_endpoint thread run ++ "/submit_tool_outputs")
        (Some (ToolOutputsBody outputs)) in
    let retries := retries_taken server KUnknown (calls w1) in
    let w2 := after_attempts w1 request retries in
    let st' := polled st currentRun in
    (length outputs = length toolCalls
     /\ map ToolOutput.tool_call_id outputs = map ToolCall.id toolCalls
     /\ (forall output, In output outputs ->
                        ToolOutput.output output = "Tool execution not implemented"))
    /\ snd (poll_iteration server this thread run st w) = w2
    /\ (forall d, server KUnknown (calls w1 + retries) = Resolved d ->
          poll_iteration server this thread run st w = (Normal st', w2)
          /\ PollState.elapsedTime st' = (PollState.elapsedTime st + pollInterval)%Z
          /\ loop_condition st'
             = (PollState.elapsedTime st + pollInterval <? maxWaitTime)%Z
          /\ (forall fuel,
                loop_condition st = true ->
                poll_loop server (S fuel) this thread run st w
                = poll_loop server fuel this thread run st' w2)).
Proof.
  intros server this thread run st w cur w1 ra Hfetch Hstatus Haction
         toolCalls outputs request retries w2 st'.
  assert (F : is_failure_status (RunResponse.status cur) = false)
    by (rewrite Hstatus; reflexivity).
  assert (E : poll_iteration server this thread run st w
              = match settle (server KUnknown (calls w1 + retries)) with
                | Normal _ => (Normal st', w2)
                | Throw e => (Throw e, w2)
                | OutOfFuel => (OutOfFuel, w2)
                end).
  { rewrite poll_iteration_eq, Hfetch, F, Hstatus, Haction.
    cbn [String.eqb Ascii.eqb Bool.eqb]. rewrite submission_eq.
    fold toolCalls outputs request retries w2. destruct (settle _); reflexivity. }
  split; [|split].
  - split; [apply length_map|]. split; [apply toolOutputs_ids|].
    apply toolOutputs_placeholder.
  - rewrite E. destruct (settle _); reflexivity.
  - intros d Hd. rewrite Hd in E. cbn [settle] in E.
    split; [exact E|]. split; [reflexivity|]. split.
    + unfold loop_condition, st', polled. cbn [PollState.runStatus PollState.elapsedTime].
      rewrite Hstatus. reflexivity.
    + intros fuel Hcond. cbn [poll_loop]. rewrite Hcond. unfold bind. rewrite E.
      reflexivity.
Qed.

Lemma requires_action_submits_placeholders_witness :
  let server := Sample.service Sample.acting Sample.listing in
  let w := snd (createThreadAndRun server Sample.handler "S" Sample.conversation
                  initial_world) in
  let st := initial_poll_state (Sample.run_in "queued" None None) in
  exists w2,
    poll_iteration server Sample.handler Sample.thread (Sample.run_in "queued" None None)
      st w
    = (Normal (polled st (Sample.run_in "requires_action" (Some Sample.action) None)), w2)
    /\ map AxiosRequestConfig.data (skipn 4 (requests w2))
       = [Some (ToolOutputsBody
                  [ {| ToolOutput.tool_call_id := "call_1";
                       ToolOutput.output := "Tool execution not implemented" |};
                    {| ToolOutput.tool_call_id := "call_2";
                       ToolOutput.output := "Tool execution not implemented" |} ])].
Proof.
  intros server w st.
  edestruct (requires_action_submits_placeholders server Sample.handler Sample.thread
               (Sample.run_in "queued" None None) st w)
    as (_ & _ & H).
  - vm_compute. reflexivity.
  - reflexivity.
  - reflexivity.
  - destruct (H tt) as (E & _); [reflexivity|].
    eexists. split; [exact E|]. vm_compute. reflexivity.
Defined.

(** ** Errors *)

Lemma raises_errors_ret : forall A (a : A), raises_errors (ret a).
Proof. intros A a w v. discriminate. Qed.

Lemma raises_errors_throw : forall A message,
  raises_errors (@throw A (ErrorObject message)).
Proof. intros A message w v. discriminate. Qed.

Lemma raises_errors_emit : forall e, raises_errors (emit e).
Proof. intros e w v. discriminate. Qed.

Lemma raises_errors_bind : forall A B (m : M A) (f : A -> M B),
  raises_errors m -> (forall a, raises_errors (f a)) -> raises_errors (bind m f).
Proof.
  intros A B m f Hm Hf w v. unfold bind. specialize (Hm w v).
  destruct (m w) as [[a|e|] w1]; cbn [fst] in *; [apply Hf | | discriminate].
  intros H. apply Hm. inversion H. reflexivity.
Qed.

Section Errors.

Variable server : Server.
Variable this : Handler.t.

(** The transport rejects with instances of [Error] only. *)
Hypothesis rejects_with_errors :
  forall k n v, server k n <> RejectedOther (OtherValue v).

Lemma makeApiCall_raises_errors : forall k method endpoint data,
  raises_errors (makeApiCall server this k method endpoint data).
Proof.
  intros k method endpoint data w v. rewrite makeApiCall_eq. cbn [fst].
  destruct (server k _) as [d|error|e] eqn:E; cbn [settle]; try discriminate.
  intros H. inversion H; subst e. exact (rejects_with_errors _ _ _ E).
Qed.

Ltac raises :=
  repeat first
    [ apply raises_errors_ret
    | apply raises_errors_throw
    | apply raises_errors_emit
    | apply makeApiCall_raises_errors
    | apply raises_errors_bind; [|intros ?] ].

Lemma createThreadAndRun_raises_errors : forall systemPrompt messages,
  raises_errors (createThreadAndRun server this systemPrompt messages).
Proof. intros. unfold createThreadAndRun. raises. Qed.

Lemma poll_iteration_raises_errors : forall thread run st,
  raises_errors (poll_iteration server this thread run st).
Proof.
  intros. unfold poll_iteration, sleep. raises.
  match goal with |- context [is_failure_status ?s] =>
    destruct (is_failure_status s); raises;
    destruct (s =? "requires_action") end;
  try match goal with |- context [RunResponse.required_action ?r] =>
    destruct (RunResponse.required_action r) end; raises.
Qed.

Lemma poll_loop_raises_errors : forall fuel thread run st,
  raises_errors (poll_loop server fuel this thread run st).
Proof.
  induction fuel as [|fuel IH]; intros thread run st; cbn [poll_loop];
    destruct (loop_condition st); try apply raises_errors_ret.
  - intros w v. discriminate.
  - apply raises_errors_bind; [apply poll_iteration_raises_errors | intros st'; apply IH].
Qed.

Lemma afterPolling_raises_errors : forall thread st,
  raises_errors (afterPolling server this thread st).
Proof.
  intros. unfold afterPolling. destruct (negb _); raises.
  unfold retrieveResponse, yield. raises.
  match goal with |- context [assistantMessages ?r] =>
    destruct (assistantMessages r) end; raises.
Qed.

Lemma createMessage_body_raises_errors : forall systemPrompt messages,
  raises_errors (createMessage_body server this systemPrompt messages).
Proof.
  intros. unfold createMessage_body.
  apply raises_errors_bind; [apply createThreadAndRun_raises_errors|].
  intros [thread run].
  apply raises_errors_bind; [apply poll_loop_raises_errors|].
  intros st. apply afterPolling_raises_errors.
Qed.

(** What an invocation throws: the configuration error as it is, or an
    error of its body with the provider name put in front. *)
Lemma createMessage_throws : forall systemPrompt messages w e w',
  createMessage server this systemPrompt messages w = (Throw e, w') ->
  e = ErrorObject "OpenAI Assistant ID is required"
  \/ exists inner, e = ErrorObject (providerName ++ " error: " ++ inner).
Proof.
  intros systemPrompt messages w e w' H. unfold createMessage in H.
  destruct (negb _).
  { inversion H. left. reflexivity. }
  unfold try_catch in H.
  pose proof (createMessage_body_raises_errors systemPrompt messages w) as R.
  destruct (createMessage_body _ _ _ _ w) as [[[]|e0|] w0]; cbn [fst] in R;
    try discriminate.
  destruct e0 as [inner|v]; [|exfalso; exact (R v eq_refl)].
  inversion H. right. exists inner. reflexivity.
Qed.

End Errors.

(** What an invocation throws as an [Error]: the configuration error as it
    is, or an error of its body with the provider name put in front. *)
Lemma createMessage_throws_error : forall server this systemPrompt messages w message w',
  createMessage server this systemPrompt messages w = (Throw (ErrorObject message), w') ->
  message = "OpenAI Assistant ID is required"
  \/ exists inner, message = providerName ++ " error: " ++ inner.
Proof.
  intros server this systemPrompt messages w message w' H. unfold createMessage in H.
  destruct (negb _).
  { inversion H. left. reflexivity. }
  unfold try_catch in H.
  destruct (createMessage_body _ _ _ _ w) as [[[]|e0|] w0]; try discriminate.
  destruct e0 as [inner|v]; [|discriminate].
  inversion H. right. exists inner. reflexivity.
Qed.

(** C9.  Whatever [Error] an invocation throws has a message that starts
    with the provider name "OpenAI Assistant": it is either the
    configuration error "OpenAI Assistant ID is required", thrown as it is,
    or an error of the protocol walk (transport, run failure, timeout, empty
    response) put after "OpenAI Assistant error: ".  And when the transport
    rejects with instances of [Error] only, an invocation throws nothing
    else. *)
Theorem createMessage_errors_name_provider :
  forall server this systemPrompt messages w e w',
    createMessage server this systemPrompt messages w = (Throw e, w') ->
    (forall message,
        e = ErrorObject message ->
        String.prefix "OpenAI Assistant" message = true
        /\ (message = "OpenAI Assistant ID is required"
            \/ exists inner, message = "OpenAI Assistant error: " ++ inner))
    /\ ((forall k n v, server k n <> RejectedOther (OtherValue v)) ->
        exists message, e = ErrorObject message).
Proof.
  intros server this systemPrompt messages w e w' H. split.
  - intros message ->.
    destruct (createMessage_throws_error _ _ _ _ _ _ _ H) as [-> | [inner ->]].
    + split; [reflexivity|]. left. reflexivity.
    + split; [reflexivity|]. right. exists inner. reflexivity.
  - intros Hserver.
    destruct (createMessage_throws server this Hserver _ _ _ _ _ H) as [-> | [inner ->]];
      eexists; reflexivity.
Qed.

Lemma createMessage_errors_name_provider_witness :
  let error := Sample.http_error 401 (Some "Incorrect API key provided")
                 "Request failed with status code 401" in
  exists w',
    createMessage (Sample.always (fun _ => RejectedAxios error)) Sample.handler
      "S" Sample.conversation initial_world
    = (Throw (ErrorObject
                "OpenAI Assistant error: OpenAI Assistant API error: Incorrect API key provided"),
       w')
    /\ String.prefix "OpenAI Assistant"
         "OpenAI Assistant error: OpenAI Assistant API error: Incorrect API key provided"
       = true.
Proof.
  intros error.
  assert (E : createMessage (Sample.always (fun _ => RejectedAxios error)) Sample.handler
                "S" Sample.conversation initial_world
              = (Throw (ErrorObject
                   "OpenAI Assistant error: OpenAI Assistant API error: Incorrect API key provided"),
                 snd (createMessage (Sample.always (fun _ => RejectedAxios error))
                        Sample.handler "S" Sample.conversation initial_world)))
    by (vm_compute; reflexivity).
  assert (Hs : forall k n v,
             Sample.always (fun k => @RejectedAxios (response_of k) error) k n
             <> RejectedOther (OtherValue v))
    by (intros k n v; unfold Sample.always; discriminate).
  destruct (createMessage_errors_name_provider _ _ _ _ _ _ _ E) as (Hp & He).
  destruct (He Hs) as (message & Hm).
  destruct (Hp _ eq_refl) as (Hprefix & _).
  eexists. split; [exact E | exact Hprefix].
Defined.

(** ** Submissions of tool outputs *)

Section Submissions.

Variable server : Server.
Variable this : Handler.t.

Lemma yield_stays_justified : forall chunk, keeps (stays_justified server) (yield chunk).
Proof.
  intros chunk w. split; [cbn; lia|]. intros Hw r Hin Hsub.
  unfold requests in Hin. cbn [yield emit snd trace] in Hin.
  rewrite flat_map_app in Hin. cbn [flat_map] in Hin. rewrite app_nil_r in Hin.
  exact (Hw r Hin Hsub).
Qed.

Lemma afterPolling_stays_justified : forall thread st,
  keeps (stays_justified server) (afterPolling server this thread st).
Proof.
  intros thread st. unfold afterPolling.
  destruct (negb _); [apply keeps_throw, stays_justified_refl|].
  unfold retrieveResponse.
  apply (keeps_bind _ (stays_justified_trans server));
    [apply makeApiCall_stays_justified; reflexivity | intros resp].
  destruct (assistantMessages resp); [apply keeps_throw, stays_justified_refl|].
  apply (keeps_bind _ (stays_justified_trans server));
    [apply yield_stays_justified | intros _; apply yield_stays_justified].
Qed.

Lemma createMessage_stays_justified : forall systemPrompt messages,
  keeps (stays_justified server) (createMessage server this systemPrompt messages).
Proof.
  intros systemPrompt messages. unfold createMessage.
  destruct (negb _); [apply keeps_throw, stays_justified_refl|].
  apply (keeps_try_catch _ (stays_justified_trans server)).
  - unfold createMessage_body.
    apply (keeps_bind _ (stays_justified_trans server));
      [apply createThreadAndRun_stays_justified | intros [thread run]].
    apply (keeps_bind _ (stays_justified_trans server));
      [apply poll_loop_stays_justified | intros st].
    apply afterPolling_stays_justified.
  - intros [m|v]; apply keeps_throw, stays_justified_refl.
Qed.

Lemma justified_initial : justified server initial_world.
Proof. intros r []. Qed.

Variable thread : ThreadResponse.t.
Variable run : RunResponse.t.

(** A poll that finds "requires_action" without a payload does nothing
    after the fetch. *)
Lemma poll_iteration_without_payload : forall st w currentRun w1,
  fetch_run server this thread run w = (Normal currentRun, w1) ->
  RunResponse.status currentRun = "requires_action" ->
  RunResponse.required_action currentRun = None ->
  poll_iteration server this thread run st w = (Normal (polled st currentRun), w1).
Proof.
  intros st w cur w1 Hfetch Hstatus Haction.
  rewrite poll_iteration_eq, Hfetch, Hstatus, Haction. reflexivity.
Qed.

Lemma poll_loop_stuck : forall fuel st w,
  stuck_from server (calls w) ->
  PollState.runStatus st <> "completed" ->
  (maxWaitTime - PollState.elapsedTime st <= Z.of_nat fuel * pollInterval)%Z ->
  exists st' w' polls,
    poll_loop server fuel this thread run st w = (Normal st', w')
    /\ PollState.runStatus st' <> "completed"
    /\ requests w'
       = (requests w
          ++ repeat (request_of this GET (run_endpoint thread run) None) polls)%list.
Proof.
  induction fuel as [|fuel IH]; intros st w Hstuck Hstatus Hfuel; cbn [poll_loop];
    destruct (loop_condition st) eqn:C.
  - apply andb_prop in C as [_ C]. apply Z.ltb_lt in C. lia.
  - exists st, w, 0. cbn [repeat]. rewrite app_nil_r. auto.
  - destruct (Hstuck (calls w) (le_n _)) as (cur & Hcur & Hs & Ha).
    assert (R : retries_taken server KRun (calls w) = 0)
      by (unfold retries_taken; rewrite Hcur; reflexivity).
    pose proof (fetch_run_eq server this thread run w) as F.
    rewrite R, Nat.add_0_r, Hcur in F. cbn [settle] in F.
    unfold bind. rewrite (poll_iteration_without_payload st _ _ _ F Hs Ha).
    destruct (IH (polled st cur)
                 (after_attempts (slept w)
                    (request_of this GET (run_endpoint thread run) None) 0))
      as (st' & w' & polls & Hloop & Hst' & Hreq).
    + intros i Hi. apply Hstuck. cbn in Hi. lia.
    + cbn [polled PollState.runStatus]. rewrite Hs. discriminate.
    + cbn [polled PollState.elapsedTime]. unfold pollInterval in *. lia.
    + exists st', w', (S polls). split; [exact Hloop|]. split; [exact Hst'|].
      rewrite Hreq, requests_attempts, requests_slept.
      rewrite <- app_assoc. reflexivity.
  - exists st, w, 0. cbn [repeat]. rewrite app_nil_r. auto.
Qed.

End Submissions.

(** C10.  Submissions happen only for a fetched run whose [required_action]
    is present: every submission in the trace of an invocation answers a run
    that an earlier request fetched in status "requires_action" with the
    payload present, and a poll that fetches a run without the payload adds
    nothing after the fetch, which itself submits nothing.  When the status
    of such a run is "requires_action" the poll ends normally, with no error.
    And when, from some round on, every fetch gives such a run, the loop only
    polls until the budget is used up, and the invocation throws the timeout
    error. *)
Theorem submission_needs_required_action :
  forall server this thread run,
    (forall systemPrompt messages,
        justified server
          (snd (createMessage server this systemPrompt messages initial_world)))
    /\ (forall st w currentRun w1,
          fetch_run server this thread run w = (Normal currentRun, w1) ->
          RunResponse.required_action currentRun = None ->
          snd (poll_iteration server this thread run st w) = w1
          /\ (forall request,
                In request (requests w1) -> is_submission request = true ->
                In request (requests w))
          /\ (RunResponse.status currentRun = "requires_action" ->
              poll_iteration server this thread run st w
              = (Normal (polled st currentRun), w1)))
    /\ (forall systemPrompt messages w w1 n st w2,
          truthy (Handler.assistantId this) = true ->
          createThreadAndRun server this systemPrompt messages w
            = (Normal (thread, run), w1) ->
          iterates server this thread run n (initial_poll_state run, w1) (st, w2) ->
          PollState.runStatus st <> "completed" ->
          stuck_from server (calls w2) ->
          exists w3 polls,
            createMessage server this systemPrompt messages w
            = (Throw (ErrorObject "OpenAI Assistant error: Assistant run timeout"), w3)
            /\ requests w3
               = (requests w2
                  ++ repeat (request_of this GET (run_endpoint thread run) None) polls)%list
            /\ yielded w3 = yielded w).
Proof.
  intros server this thread run. split; [|split].
  - intros systemPrompt messages.
    apply (createMessage_stays_justified server this systemPrompt messages initial_world).
    apply justified_initial.
  - intros st w cur w1 Hfetch Haction. split; [|split].
    + rewrite poll_iteration_eq, Hfetch, Haction.
      destruct (is_failure_status _); [reflexivity|]. destruct (_ =? _); reflexivity.
    + intros request Hin Hsub. rewrite fetch_run_eq in Hfetch.
      apply (f_equal snd) in Hfetch. cbn [snd] in Hfetch. rewrite <- Hfetch in Hin.
      rewrite requests_attempts, requests_slept in Hin.
      apply in_app_or in Hin as [Hin | Hin]; [exact Hin|].
      apply repeat_spec in Hin. subst request. discriminate.
    + intros Hstatus. apply poll_iteration_without_payload; assumption.
  - intros systemPrompt messages w w1 n st w2 Hid Hsetup Hiter Hstatus Hstuck.
    pose proof (iterates_elapsed _ _ _ _ _ _ _ Hiter) as E.
    pose proof (iterates_ceiling _ _ _ _ _ _ _ Hiter 0%Z eq_refl ltac:(lia)) as U.
    cbn [fst initial_poll_state PollState.elapsedTime] in E, U.
    assert (Hn : n <= poll_fuel).
    { unfold poll_fuel, maxWaitTime, pollInterval in *.
      change (Z.to_nat (300000 / 1000)) with 300. lia. }
    destruct (poll_loop_stuck server this thread run (poll_fuel - n) st w2 Hstuck Hstatus)
      as (st' & w3 & polls & Hloop & Hst' & Hreq).
    { rewrite E. unfold poll_fuel, maxWaitTime, pollInterval in *.
      change (Z.to_nat (300000 / 1000)) with 300 in *. lia. }
    assert (C : createMessage server this systemPrompt messages w
                = (Throw (ErrorObject "OpenAI Assistant error: Assistant run timeout"), w3)).
    { rewrite createMessage_eq by assumption. rewrite Hsetup.
      replace poll_fuel with (n + (poll_fuel - n)) by lia.
      rewrite (iterates_poll_loop _ _ _ _ _ _ _ Hiter). cbn [fst snd]. rewrite Hloop.
      unfold afterPolling. apply String.eqb_neq in Hst'. rewrite Hst'. reflexivity. }
    exists w3, polls. split; [exact C|]. split; [exact Hreq|].
    destruct (createMessage_yields _ _ _ _ _ _ _ C) as [(t & D & _) | (_ & Y)];
      [discriminate | exact Y].
Qed.

Lemma submission_needs_required_action_witness :
  exists w3,
    createMessage (Sample.service Sample.stuck Sample.listing) Sample.handler
      "S" Sample.conversation initial_world
    = (Throw (ErrorObject "OpenAI Assistant error: Assistant run timeout"), w3)
    /\ yielded w3 = [].
Proof.
  destruct (submission_needs_required_action
              (Sample.service Sample.stuck Sample.listing) Sample.handler
              Sample.thread (Sample.run_in "requires_action" None None))
    as (_ & _ & H).
  edestruct (H "S" Sample.conversation initial_world) with (n := 0)
    as (w3 & polls & Hc & _ & Hy).
  - reflexivity.
  - vm_compute. reflexivity.
  - apply iterates_refl.
  - discriminate.
  - intros i _. eexists. repeat split.
  - exists w3. split; [exact Hc | exact Hy].
Defined.

(** * Further properties *)

(** ** Objects built by spreading *)

Lemma property_set_header_same : forall key value hs,
  property key (set_header key value hs) = Some value.
Proof.
  induction hs as [|[k v] hs IH]; cbn [set_header property].
  - now rewrite String.eqb_refl.
  - destruct (k =? key) eqn:E; cbn [property].
    + now rewrite String.eqb_refl.
    + now rewrite E.
Qed.

Lemma property_set_header_other : forall key key' value hs,
  key' <> key -> property key' (set_header key value hs) = property key' hs.
Proof.
  intros key key' value hs Hne. apply String.eqb_neq in Hne.
  rewrite String.eqb_sym in Hne.
  induction hs as [|[k v] hs IH]; cbn [set_header property].
  - now rewrite Hne.
  - destruct (k =? key) eqn:E; cbn [property].
    + apply String.eqb_eq in E. subst k. now rewrite Hne.
    + now rewrite IH.
Qed.

Lemma property_set_field_same : forall key value obj,
  property key (set_field key value obj) = Some value.
Proof.
  induction obj as [|[k v] obj IH]; cbn [set_field property].
  - now rewrite String.eqb_refl.
  - destruct (k =? key) eqn:E; cbn [property].
    + now rewrite String.eqb_refl.
    + now rewrite E.
Qed.

Lemma property_set_field_other : forall key key' value obj,
  key' <> key -> property key' (set_field key value obj) = property key' obj.
Proof.
  intros key key' value obj Hne. apply String.eqb_neq in Hne.
  rewrite String.eqb_sym in Hne.
  induction obj as [|[k v] obj IH]; cbn [set_field property].
  - now rewrite Hne.
  - destruct (k =? key) eqn:E; cbn [property].
    + apply String.eqb_eq in E. subst k. now rewrite Hne.
    + now rewrite IH.
Qed.

(** X1.  Whatever the default headers are, the headers of a handler carry
    the bearer authorization of its key (the empty key when none is set),
    the JSON content type and the assistants beta marker; every other header
    is the default one. *)
Theorem constructor_headers :
  forall DEFAULT_HEADERS apiRequestTimeout options,
    let this := constructor DEFAULT_HEADERS apiRequestTimeout options in
    let key :=
      match ApiHandlerOptions.openAiAssistantApiKey options with
      | Some k => k
      | None => ""
      end in
    property "Authorization" (Handler.headers this) = Some ("Bearer " ++ key)
    /\ property "Content-Type" (Handler.headers this) = Some "application/json"
    /\ property "OpenAI-Beta" (Handler.headers this) = Some "assistants=v2"
    /\ (forall name,
          name <> "Authorization" -> name <> "Content-Type" -> name <> "OpenAI-Beta" ->
          property name (Handler.headers this) = property name DEFAULT_HEADERS).
Proof.
  intros DH T options this key.
  assert (K : Handler.apiKey this = key).
  { unfold this, key, constructor, or_string, truthy. cbn [Handler.apiKey].
    destruct (ApiHandlerOptions.openAiAssistantApiKey options) as [k|]; [|reflexivity].
    destruct (String.eqb_spec k ""); [subst; reflexivity | reflexivity]. }
  unfold this, constructor in *. cbn [Handler.headers Handler.apiKey] in *.
  repeat split.
  - rewrite property_set_header_same, K. reflexivity.
  - rewrite property_set_header_other by discriminate. apply property_set_header_same.
  - rewrite !property_set_header_other by discriminate. apply property_set_header_same.
  - intros name H1 H2 H3. now rewrite !property_set_header_other by assumption.
Qed.

Lemma constructor_headers_witness :
  property "Authorization"
    (Handler.headers
       (constructor [("Authorization", "Bearer other"); ("User-Agent", "Kilo-Code")]
          600000 Sample.options))
  = Some "Bearer sk-test"
  /\ property "User-Agent"
       (Handler.headers
          (constructor [("Authorization", "Bearer other"); ("User-Agent", "Kilo-Code")]
             600000 Sample.options))
     = Some "Kilo-Code".
Proof.
  destruct (constructor_headers
              [("Authorization", "Bearer other"); ("User-Agent", "Kilo-Code")]
              600000 Sample.options) as (HA & _ & _ & Hother).
  split; [exact HA|]. rewrite Hother by discriminate. reflexivity.
Defined.

(** X2.  [getModel] never fails, even for a handler without an assistant
    identifier: it reports the identifier the handler holds, and whatever the
    imported defaults say, 16384 output tokens, a context window of 128000
    and no prompt cache; every other field is the default one. *)
Theorem getModel_info :
  forall defaults this,
    let model := getModel defaults this in
    ModelDescription.id model = Handler.assistantId this
    /\ property "maxTokens" (ModelDescription.info model) = Some (NumberField 16384)
    /\ property "contextWindow" (ModelDescription.info model) = Some (NumberField 128000)
    /\ property "supportsPromptCache" (ModelDescription.info model)
       = Some (BooleanField false)
    /\ (forall name,
          name <> "maxTokens" -> name <> "contextWindow" ->
          name <> "supportsPromptCache" ->
          property name (ModelDescription.info model) = property name defaults).
Proof.
  intros defaults this model. unfold model, getModel.
  cbn [ModelDescription.id ModelDescription.info]. repeat split.
  - rewrite !property_set_field_other by discriminate. apply property_set_field_same.
  - rewrite property_set_field_other by discriminate. apply property_set_field_same.
  - apply property_set_field_same.
  - intros name H1 H2 H3. now rewrite !property_set_field_other by assumption.
Qed.

Lemma getModel_info_witness :
  let model := getModel Scenario.defaults (constructor [] 600000 Sample.options) in
  ModelDescription.id model = "asst_1"
  /\ property "maxTokens" (ModelDescription.info model) = Some (NumberField 16384)
  /\ property "supportsImages" (ModelDescription.info model) = Some (BooleanField false).
Proof.
  intros model.
  destruct (getModel_info Scenario.defaults (constructor [] 600000 Sample.options))
    as (Hid & Hmax & _ & _ & Hother).
  split; [exact Hid|]. split; [exact Hmax|].
  unfold model. rewrite Hother by discriminate. reflexivity.
Defined.

(** ** More on the flattener *)

Lemma append_assoc : forall a b c : string, (a ++ b) ++ c = a ++ (b ++ c).
Proof.
  induction a as [|ch a IH]; intros b c; [reflexivity|].
  cbn [append]. now rewrite IH.
Qed.

Lemma join_app : forall sep xs ys,
  xs <> [] -> ys <> [] ->
  join sep (xs ++ ys) = join sep xs ++ sep ++ join sep ys.
Proof.
  unfold join. induction xs as [|x xs IH]; intros ys Hx Hy; [contradiction|].
  destruct xs as [|x' xs].
  - destruct ys as [|y ys]; [contradiction | reflexivity].
  - change (String.concat sep ((x :: x' :: xs) ++ ys))
      with (x ++ sep ++ String.concat sep ((x' :: xs) ++ ys)).
    rewrite (IH ys) by (assumption || discriminate).
    change (String.concat sep (x :: x' :: xs))
      with (x ++ sep ++ String.concat sep (x' :: xs)).
    now rewrite !append_assoc.
Qed.

Lemma existsb_filter_not_nil : forall A (p : A -> bool) l,
  existsb p l = true -> filter p l <> [].
Proof.
  induction l as [|a l IH]; cbn [existsb filter]; [discriminate|].
  destruct (p a); [discriminate | exact IH].
Qed.

(** X3.  Flattening composes: when each part of a conversation holds a
    message with a string or an array content, flattening the second part
    with the flattened first part as its system prompt gives the flattened
    text of the whole conversation. *)
Theorem constructUserMessage_app :
  forall systemPrompt earlier later,
    existsb has_string_or_array_content earlier = true ->
    existsb has_string_or_array_content later = true ->
    constructUserMessage (constructUserMessage systemPrompt earlier) later
    = constructUserMessage systemPrompt (earlier ++ later).
Proof.
  intros systemPrompt earlier later He Hl.
  unfold constructUserMessage. rewrite !surviving_strings.
  rewrite filter_app, map_app.
  apply existsb_filter_not_nil in He, Hl.
  rewrite join_app.
  - now rewrite !append_assoc.
  - intros H. apply map_eq_nil in H. contradiction.
  - intros H. apply map_eq_nil in H. contradiction.
Qed.

Lemma constructUserMessage_app_witness :
  constructUserMessage (constructUserMessage "S" Sample.conversation) [Sample.image_only]
  = constructUserMessage "S" (Sample.conversation ++ [Sample.image_only]).
Proof.
  apply constructUserMessage_app; reflexivity.
Defined.

Lemma flatten_as_string_content : forall msg,
  flatten_message (as_string_content msg) = flatten_message msg.
Proof.
  intros [r c]. unfold flatten_message, as_string_content.
  cbn [MessageParam.content MessageParam.role].
  destruct c; [reflexivity | now rewrite text_parts_are_block_texts | reflexivity].
Qed.

(** X4.  Only the text blocks of an array content reach the flattened text:
    replacing every array content by the string made of the texts of its
    text blocks, joined by newlines, changes nothing, so images, tool uses
    and tool results leave no trace. *)
Theorem constructUserMessage_reads_text_only :
  forall systemPrompt messages,
    constructUserMessage systemPrompt (map as_string_content messages)
    = constructUserMessage systemPrompt messages.
Proof.
  intros systemPrompt messages. unfold constructUserMessage.
  rewrite map_map.
  rewrite (map_ext _ _ flatten_as_string_content). reflexivity.
Qed.

(** ** What an invocation requests *)

Lemma requested_refl : forall P w, requested P w w.
Proof. intros P w. exists []. split; [now rewrite app_nil_r | constructor]. Qed.

Lemma requested_trans : forall P w1 w2 w3,
  requested P w1 w2 -> requested P w2 w3 -> requested P w1 w3.
Proof.
  intros P w1 w2 w3 (n1 & E1 & F1) (n2 & E2 & F2). exists (n1 ++ n2)%list. split.
  - rewrite E2, E1. now rewrite app_assoc.
  - apply Forall_app. split; assumption.
Qed.

Lemma requested_attempts : forall (P : AxiosRequestConfig.t -> Prop) w request retries,
  P request -> requested P w (after_attempts w request retries).
Proof.
  intros P w request retries H. exists (repeat request (S retries)).
  split; [apply requests_attempts|].
  apply Forall_forall. intros r Hr. apply repeat_spec in Hr. now subst r.
Qed.

Lemma requested_emit : forall P e w,
  match e with Request _ => False | _ => True end ->
  requested P w (snd (emit e w)).
Proof.
  intros P e w He. exists []. split; [|constructor].
  unfold requests. cbn [emit snd trace]. rewrite flat_map_app, app_nil_r.
  destruct e; [contradiction | |]; cbn [flat_map]; now rewrite app_nil_r.
Qed.

Lemma prefix_append : forall a b, String.prefix a (a ++ b) = true.
Proof.
  induction a as [|c a IH]; intros b; [destruct b; reflexivity|].
  cbn [append String.prefix]. destruct (ascii_dec c c); [apply IH | contradiction].
Qed.

Lemma request_of_issued_by : forall this method endpoint data,
  issued_by this (request_of this method endpoint data).
Proof.
  intros. unfold issued_by, request_of. cbn. repeat split. apply prefix_append.
Qed.

Section Requests.

Variable server : Server.
Variable this : Handler.t.
Variable P : AxiosRequestConfig.t -> Prop.

Lemma makeApiCall_requested : forall k method endpoint data,
  P (request_of this method endpoint data) ->
  keeps (requested P) (makeApiCall server this k method endpoint data).
Proof.
  intros k method endpoint data H w. rewrite makeApiCall_eq. cbn [snd].
  now apply requested_attempts.
Qed.

Lemma poll_iteration_requested : forall thread run st,
  P (request_of this GET (run_endpoint thread run) None) ->
  (forall outputs,
      P (request_of this POST (run_endpoint thread run ++ "/submit_tool_outputs")
           (Some (ToolOutputsBody outputs)))) ->
  keeps (requested P) (poll_iteration server this thread run st).
Proof.
  intros thread run st Hfetch Hsubmit w. rewrite poll_iteration_eq, fetch_run_eq.
  set (w1 := after_attempts (slept w) _ _).
  assert (H1 : requested P w w1).
  { apply requested_trans with (slept w).
    - apply (requested_emit P (Sleep pollInterval) w). exact I.
    - now apply requested_attempts. }
  destruct (settle _) as [cur|e|]; cbn [snd]; try exact H1.
  destruct (is_failure_status _); [exact H1|].
  destruct (_ =? _); destruct (RunResponse.required_action cur) as [ra|]; try exact H1.
  rewrite submission_eq.
  set (w2 := after_attempts w1 _ _).
  assert (H2 : requested P w w2).
  { apply requested_trans with w1; [exact H1|]. apply requested_attempts, Hsubmit. }
  destruct (settle _); exact H2.
Qed.

Lemma poll_loop_requested : forall thread run fuel st,
  P (request_of this GET (run_endpoint thread run) None) ->
  (forall outputs,
      P (request_of this POST (run_endpoint thread run ++ "/submit_tool_outputs")
           (Some (ToolOutputsBody outputs)))) ->
  keeps (requested P) (poll_loop server fuel this thread run st).
Proof.
  intros thread run fuel st Hfetch Hsubmit. revert st.
  induction fuel as [|fuel IH]; intros st; cbn [poll_loop];
    destruct (loop_condition st); try (intros w; apply requested_refl).
  apply (keeps_bind _ (requested_trans P));
    [now apply poll_iteration_requested | exact IH].
Qed.

Hypothesis P_request_of : forall method endpoint data,
  P (request_of this method endpoint data).

Lemma createMessage_requested : forall systemPrompt messages,
  keeps (requested P) (createMessage server this systemPrompt messages).
Proof.
  intros systemPrompt messages. unfold createMessage.
  destruct (negb _); [intros w; apply requested_refl|].
  apply (keeps_try_catch _ (requested_trans P)).
  - unfold createMessage_body.
    apply (keeps_bind _ (requested_trans P)).
    { unfold createThreadAndRun.
      repeat (apply (keeps_bind _ (requested_trans P));
              [apply makeApiCall_requested, P_request_of | intros ?]).
      intros w; apply requested_refl. }
    intros [thread run].
    apply (keeps_bind _ (requested_trans P));
      [apply poll_loop_requested; intros; apply P_request_of | intros st].
    unfold afterPolling. destruct (negb _); [intros w; apply requested_refl|].
    unfold retrieveResponse.
    apply (keeps_bind _ (requested_trans P));
      [apply makeApiCall_requested, P_request_of | intros resp].
    destruct (assistantMessages resp); [intros w; apply requested_refl|].
    apply (keeps_bind _ (requested_trans P)); [|intros _];
      intros w; apply (requested_emit P (Yield _) w); exact I.
  - intros [m|v] w; apply requested_refl.
Qed.

End Requests.

(** X5.  Every request an invocation issues, in whatever step and whether it
    ends well or not, carries the headers and the timeout of the handler and
    goes to a URL that starts with its base URL. *)
Theorem createMessage_requests_issued_by_handler :
  forall server this systemPrompt messages w,
    exists new,
      requests (snd (createMessage server this systemPrompt messages w))
      = (requests w ++ new)%list
      /\ Forall (fun request =>
                   AxiosRequestConfig.headers request = Handler.headers this
                   /\ AxiosRequestConfig.timeout request = Handler.timeout this
                   /\ String.prefix (Handler.baseURL this)
                        (AxiosRequestConfig.url request) = true)
                new.
Proof.
  intros server this systemPrompt messages w.
  exact (createMessage_requested server this (issued_by this)
           (request_of_issued_by this) systemPrompt messages w).
Qed.

(** X6.  While it polls, the handler talks to the run it created and to
    nothing else: every request of the loop is the fetch of that run or a
    submission of tool outputs to it, so no further thread, message or run is
    created. *)
Theorem poll_loop_polls_created_run :
  forall server this thread run fuel st w,
    exists new,
      requests (snd (poll_loop server fuel this thread run st w))
      = (requests w ++ new)%list
      /\ Forall (fun request =>
                   request = request_of this GET (run_endpoint thread run) None
                   \/ exists outputs,
                        request
                        = request_of this POST
                            (run_endpoint thread run ++ "/submit_tool_outputs")
                            (Some (ToolOutputsBody outputs)))
                new.
Proof.
  intros server this thread run fuel st w.
  apply (poll_loop_requested server this (polls_run this thread run) thread run fuel st).
  - left. reflexivity.
  - intros outputs. right. exists outputs. reflexivity.
Qed.

(** ** Bounds on requests and waiting *)

Lemma total_wait_app : forall xs ys,
  fold_right Z.add 0%Z (xs ++ ys)
  = (fold_right Z.add 0 xs + fold_right Z.add 0 ys)%Z.
Proof.
  induction xs as [|x xs IH]; intros ys; cbn [app fold_right]; [lia|].
  rewrite IH. lia.
Qed.

Lemma total_wait_attempts : forall w request retries,
  total_wait (after_attempts w request retries)
  = (total_wait w + retryDelay * Z.of_nat retries)%Z.
Proof.
  intros w request retries. unfold total_wait.
  rewrite sleeps_attempts, total_wait_app. f_equal.
  induction retries as [|r IH]; [cbn; lia|].
  cbn [repeat fold_right]. rewrite IH. lia.
Qed.

Lemma total_wait_slept : forall w,
  total_wait (slept w) = (total_wait w + pollInterval)%Z.
Proof.
  intros w. unfold total_wait, sleeps, slept. cbn [trace].
  rewrite flat_map_app, total_wait_app. cbn. lia.
Qed.

Lemma retries_taken_le : forall server k n, retries_taken server k n <= 2.
Proof.
  intros server k n. unfold retries_taken.
  destruct (rate_limited (server k n)); [destruct (rate_limited (server k (S n)))|]; lia.
Qed.

Lemma adds_attempts : forall w request retries,
  retries <= 2 ->
  adds_at_most 3 0 120000 w (after_attempts w request retries).
Proof.
  intros w request retries H. unfold adds_at_most.
  rewrite requests_attempts, length_app, repeat_length, poll_waits_attempts,
    total_wait_attempts.
  unfold retryDelay. lia.
Qed.

Lemma adds_slept : forall w, adds_at_most 0 1 1000 w (slept w).
Proof.
  intros w. unfold adds_at_most.
  rewrite requests_slept, poll_waits_slept, total_wait_slept. unfold pollInterval. lia.
Qed.

Lemma adds_refl : forall w, adds_at_most 0 0 0 w w.
Proof. intros w. unfold adds_at_most. lia. Qed.

Lemma adds_trans : forall c1 p1 t1 c2 p2 t2 w1 w2 w3,
  adds_at_most c1 p1 t1 w1 w2 -> adds_at_most c2 p2 t2 w2 w3 ->
  adds_at_most (c1 + c2) (p1 + p2) (t1 + t2) w1 w3.
Proof. unfold adds_at_most. intros. lia. Qed.

Lemma adds_weaken : forall c p t c' p' t' w w',
  adds_at_most c p t w w' -> c <= c' -> p <= p' -> (t <= t')%Z ->
  adds_at_most c' p' t' w w'.
Proof. unfold adds_at_most. intros. lia. Qed.

Lemma adds_yields : forall w first second,
  adds_at_most 0 0 0 w
    {| calls := calls w; trace := trace w ++ [Yield first; Yield second] |}.
Proof.
  intros w first second. unfold adds_at_most, poll_waits, total_wait, sleeps, requests.
  cbn [trace]. rewrite !flat_map_app. cbn [flat_map app].
  rewrite !app_nil_r. lia.
Qed.

Lemma bounded_bind : forall A B (m : M A) (f : A -> M B) c1 p1 t1 c2 p2 t2,
  bounded c1 p1 t1 m -> (forall a, bounded c2 p2 t2 (f a)) -> (0 <= t2)%Z ->
  bounded (c1 + c2) (p1 + p2) (t1 + t2) (bind m f).
Proof.
  intros A B m f c1 p1 t1 c2 p2 t2 Hm Hf Ht w. unfold bind. specialize (Hm w).
  destruct (m w) as [[a| |] w1]; cbn [snd] in *.
  - eapply adds_trans; [exact Hm | apply Hf].
  - eapply adds_weaken; [exact Hm | lia..].
  - eapply adds_weaken; [exact Hm | lia..].
Qed.

Section Bounds.

Variable server : Server.
Variable this : Handler.t.

Lemma makeApiCall_bounded : forall k method endpoint data,
  bounded 3 0 120000 (makeApiCall server this k method endpoint data).
Proof.
  intros k method endpoint data w. rewrite makeApiCall_eq. cbn [snd].
  apply adds_attempts, retries_taken_le.
Qed.

Lemma createThreadAndRun_bounded : forall systemPrompt messages,
  bounded 9 0 360000 (createThreadAndRun server this systemPrompt messages).
Proof.
  intros systemPrompt messages w. unfold createThreadAndRun.
  eapply adds_weaken.
  - apply (bounded_bind _ _ _ _ 3 0 120000 6 0 240000);
      [apply makeApiCall_bounded | intros thread | lia].
    apply (bounded_bind _ _ _ _ 3 0 120000 3 0 120000);
      [apply makeApiCall_bounded | intros _ | lia].
    apply (bounded_bind _ _ _ _ 3 0 120000 0 0 0);
      [apply makeApiCall_bounded | intros run | lia].
    intros w'. apply adds_refl.
  - lia.
  - lia.
  - lia.
Qed.

Lemma poll_iteration_bounded : forall thread run st,
  bounded 6 1 241000 (poll_iteration server this thread run st).
Proof.
  intros thread run st w. rewrite poll_iteration_eq, fetch_run_eq.
  set (w1 := after_attempts (slept w) _ _).
  assert (H1 : adds_at_most 3 1 121000 w w1).
  { eapply adds_weaken.
    - eapply adds_trans; [apply adds_slept | apply adds_attempts, retries_taken_le].
    - lia.
    - lia.
    - lia. }
  assert (H1' : adds_at_most 6 1 241000 w w1)
    by (eapply adds_weaken; [exact H1 | lia..]).
  destruct (settle _) as [cur|e|]; cbn [snd]; try exact H1'.
  destruct (is_failure_status _); [exact H1'|].
  destruct (_ =? _); destruct (RunResponse.required_action cur) as [ra|]; try exact H1'.
  rewrite submission_eq.
  set (w2 := after_attempts w1 _ _).
  assert (H2 : adds_at_most 6 1 241000 w w2).
  { eapply adds_weaken.
    - eapply adds_trans; [exact H1 | apply adds_attempts, retries_taken_le].
    - lia.
    - lia.
    - lia. }
  destruct (settle _); exact H2.
Qed.

Lemma poll_loop_bounded : forall thread run fuel st,
  bounded (6 * fuel) fuel (241000 * Z.of_nat fuel)
    (poll_loop server fuel this thread run st).
Proof.
  intros thread run. induction fuel as [|fuel IH]; intros st w; cbn [poll_loop];
    destruct (loop_condition st);
    try (eapply adds_weaken; [apply adds_refl | lia..]).
  eapply adds_weaken.
  - apply (bounded_bind _ _ _ _ 6 1 241000 (6 * fuel) fuel (241000 * Z.of_nat fuel));
      [apply poll_iteration_bounded | exact IH | lia].
  - lia.
  - lia.
  - lia.
Qed.

Lemma afterPolling_bounded : forall thread st,
  bounded 3 0 120000 (afterPolling server this thread st).
Proof.
  intros thread st w. unfold afterPolling.
  destruct (negb _); [eapply adds_weaken; [apply adds_refl | lia..]|].
  rewrite retrieveResponse_eq.
  pose proof (makeApiCall_bounded KMessagesList GET
                ("/threads/" ++ ThreadResponse.id thread ++ "/messages") None w) as H.
  destruct (makeApiCall _ _ _ _ _ _ w) as [[resp| |] w3]; cbn [snd] in *; try exact H.
  destruct (assistantMessages resp) as [|latest older]; cbn [snd]; [exact H|].
  eapply adds_weaken.
  - eapply adds_trans; [exact H | apply adds_yields].
  - lia.
  - lia.
  - lia.
Qed.

Lemma createMessage_bounded : forall systemPrompt messages,
  bounded 1812 300 72780000 (createMessage server this systemPrompt messages).
Proof.
  intros systemPrompt messages w. unfold createMessage.
  destruct (negb _); [eapply adds_weaken; [apply adds_refl | lia..]|].
  unfold try_catch.
  assert (B : bounded 1812 300 72780000
                (createMessage_body server this systemPrompt messages)).
  { intros w0. unfold createMessage_body. eapply adds_weaken.
    - apply (bounded_bind _ _ _ _ 9 0 360000 1803 300 72420000);
        [apply createThreadAndRun_bounded | intros [thread run] | lia].
      intros w1. eapply adds_weaken.
      + apply (bounded_bind _ _ _ _ (6 * poll_fuel) poll_fuel
                 (241000 * Z.of_nat poll_fuel) 3 0 120000);
          [apply poll_loop_bounded | intros st; apply afterPolling_bounded | lia].
      + vm_compute. lia.
      + vm_compute. lia.
      + vm_compute. discriminate.
    - lia.
    - lia.
    - lia. }
  specialize (B w).
  destruct (createMessage_body _ _ _ _ w) as [[[]|e|] w']; cbn [snd] in *; try exact B.
  destruct e; exact B.
Qed.

End Bounds.

(** X7.  An invocation issues at most 1812 requests: three attempts for each
    of the three calls that set the run up, for the fetch and the submission
    of each of at most 300 polls, and for the listing. *)
Theorem createMessage_request_bound :
  forall server this systemPrompt messages w,
    length (requests (snd (createMessage server this systemPrompt messages w)))
    <= length (requests w) + 1812.
Proof.
  intros server this systemPrompt messages w.
  apply (createMessage_bounded server this systemPrompt messages w).
Qed.

(** X8.  An invocation waits one poll interval at most 300 times, but the
    waits after rate limits are not counted against that budget: all in all
    it may wait up to 72780000 ms, and never longer. *)
Theorem createMessage_wait_bound :
  forall server this systemPrompt messages w,
    let w' := snd (createMessage server this systemPrompt messages w) in
    poll_waits w' <= poll_waits w + 300
    /\ (total_wait w' <= total_wait w + 72780000)%Z.
Proof.
  intros server this systemPrompt messages w w'.
  apply (createMessage_bounded server this systemPrompt messages w).
Qed.

(** ** The steps that set the run up *)

(** X9.  When the three calls that set the run up succeed, the requests they
    issued are, in this order and each repeated only after a rate limit, with
    a wait of 60 seconds before each repeat: the creation of a thread with an
    empty body; the post, on the thread the service returned, of one message
    of role "user" whose content is the flattened conversation; and the
    creation of a run on that thread for the assistant of the handler.  The
    thread and the run handed on are the ones the service answered with. *)
Theorem createThreadAndRun_requests :
  forall server this systemPrompt messages w thread run w1,
    createThreadAndRun server this systemPrompt messages w = (Normal (thread, run), w1) ->
    let a := retries_taken server KThread (calls w) in
    let b := retries_taken server KMessage (calls w + S a) in
    let c := retries_taken server KRun (calls w + S a + S b) in
    let create_thread := request_of this POST "/threads" (Some EmptyObject) in
    let post_message :=
      request_of this POST ("/threads/" ++ ThreadResponse.id thread ++ "/messages")
        (Some (MessageBody "user" (constructUserMessage systemPrompt messages))) in
    let create_run :=
      request_of this POST ("/threads/" ++ ThreadResponse.id thread ++ "/runs")
        (Some (RunBody (Handler.assistantId this))) in
    (a <= 2 /\ forall i, i < a -> rate_limited (server KThread (calls w + i)) = true)
    /\ (b <= 2
        /\ forall i, i < b -> rate_limited (server KMessage (calls w + S a + i)) = true)
    /\ (c <= 2
        /\ forall i, i < c ->
             rate_limited (server KRun (calls w + S a + S b + i)) = true)
    /\ server KThread (calls w + a) = Resolved thread
    /\ server KRun (calls w + S a + S b + c) = Resolved run
    /\ trace w1
       = (trace w ++ attempts create_thread a ++ attempts post_message b
          ++ attempts create_run c)%list
    /\ requests w1
       = (requests w ++ repeat create_thread (S a) ++ repeat post_message (S b)
          ++ repeat create_run (S c))%list.
Proof.
  intros server this systemPrompt messages w thread run w1 H a b c
         create_thread post_message create_run.
  destruct (createThreadAndRun_Normal _ _ _ _ _ _ _ _ H) as (E1 & E3 & ->).
  split; [split; [apply retries_taken_le | apply retries_taken_rate_limited]|].
  split; [split; [apply retries_taken_le | apply retries_taken_rate_limited]|].
  split; [split; [apply retries_taken_le | apply retries_taken_rate_limited]|].
  split; [exact E1|]. split; [exact E3|]. split.
  - cbn [after_attempts trace]. now rewrite <- !app_assoc.
  - rewrite !requests_attempts. now rewrite <- !app_assoc.
Qed.

Lemma createThreadAndRun_requests_witness :
  exists w1,
    createThreadAndRun (Sample.limited_then 1 (Sample.service Sample.completing Sample.listing))
      Sample.handler "S" Sample.conversation initial_world
    = (Normal (Sample.thread, Sample.run_in "in_progress" None None), w1)
    /\ map AxiosRequestConfig.url (requests w1)
       = [ "https://api.openai.com/v1/threads";
           "https://api.openai.com/v1/threads";
           "https://api.openai.com/v1/threads/thread_1/messages";
           "https://api.openai.com/v1/threads/thread_1/runs" ].
Proof.
  assert (E : createThreadAndRun
                (Sample.limited_then 1 (Sample.service Sample.completing Sample.listing))
                Sample.handler "S" Sample.conversation initial_world
              = (Normal (Sample.thread, Sample.run_in "in_progress" None None),
                 snd (createThreadAndRun
                        (Sample.limited_then 1
                           (Sample.service Sample.completing Sample.listing))
                        Sample.handler "S" Sample.conversation initial_world)))
    by (vm_compute; reflexivity).
  destruct (createThreadAndRun_requests _ _ _ _ _ _ _ _ E)
    as (_ & _ & _ & _ & _ & _ & Hrequests).
  eexists. split; [exact E|]. rewrite Hrequests. vm_compute. reflexivity.
Defined.

(** X10.  A failure of the very first call ends the invocation there: only
    the attempts to create the thread have been issued, no message is posted,
    no run is created and nothing is yielded.  An axios error reaches the
    caller with both prefixes, "OpenAI Assistant error: OpenAI Assistant API
    error: "; another [Error] with the first prefix only; a value that is not
    an [Error] as it is. *)
Theorem createMessage_thread_creation_failure :
  forall server this systemPrompt messages w,
    truthy (Handler.assistantId this) = true ->
    let retries := retries_taken server KThread (calls w) in
    let w' := after_attempts w (request_of this POST "/threads" (Some EmptyObject)) retries in
    match server KThread (calls w + retries) with
    | Resolved _ => True
    | RejectedAxios error =>
        createMessage server this systemPrompt messages w
        = (Throw (ErrorObject ("OpenAI Assistant error: OpenAI Assistant API error: "
                               ++ reported_message error)), w')
    | RejectedOther (ErrorObject message) =>
        createMessage server this systemPrompt messages w
        = (Throw (ErrorObject ("OpenAI Assistant error: " ++ message)), w')
    | RejectedOther (OtherValue v) =>
        createMessage server this systemPrompt messages w = (Throw (OtherValue v), w')
    end.
Proof.
  intros server this systemPrompt messages w Hid retries w'.
  destruct (server KThread (calls w + retries)) as [d|error|[message|v]] eqn:E;
    [exact I | | |];
    rewrite createMessage_eq by assumption;
    unfold createThreadAndRun; unfold bind at 1; rewrite makeApiCall_eq;
    fold retries; rewrite E; reflexivity.
Qed.

Lemma createMessage_thread_creation_failure_witness :
  exists w',
    createMessage (Sample.always (fun _ => RejectedAxios Scenario.unauthorized))
      Sample.handler "S" Sample.conversation initial_world
    = (Throw (ErrorObject
                "OpenAI Assistant error: OpenAI Assistant API error: Incorrect API key provided"),
       w')
    /\ length (requests w') = 1.
Proof.
  pose proof (createMessage_thread_creation_failure
                (Sample.always (fun _ => RejectedAxios Scenario.unauthorized))
                Sample.handler "S" Sample.conversation initial_world eq_refl) as H.
  cbn in H. eexists. split; [exact H | reflexivity].
Defined.

(** ** More on the poll loop *)

(** X11.  Completion is seen at whatever round it shows, the 300th included:
    when a poll the loop reaches fetches a run in status "completed", the
    loop ends there with that status, without another wait and without any
    submission, after at most 300 rounds. *)
Theorem poll_loop_sees_completion :
  forall server this thread run w1 n st w2 currentRun w3,
    iterates server this thread run n (initial_poll_state run, w1) (st, w2) ->
    loop_condition st = true ->
    fetch_run server this thread run w2 = (Normal currentRun, w3) ->
    RunResponse.status currentRun = "completed" ->
    poll_loop server poll_fuel this thread run (initial_poll_state run) w1
    = (Normal (polled st currentRun), w3)
    /\ PollState.elapsedTime (polled st currentRun) = (Z.of_nat (S n) * pollInterval)%Z
    /\ S n <= 300.
Proof.
  intros server this thread run w1 n st w2 cur w3 Hiter Hcond Hfetch Hstatus.
  pose proof (iterates_rounds_bound _ _ _ _ _ _ _ _ _ Hiter eq_refl Hcond) as Hn.
  pose proof (iterates_elapsed _ _ _ _ _ _ _ Hiter) as E.
  cbn [fst initial_poll_state PollState.elapsedTime] in E.
  split; [|split].
  - replace poll_fuel with (n + S (poll_fuel - S n)) by lia.
    rewrite (iterates_poll_loop _ _ _ _ _ _ _ Hiter). cbn [fst snd poll_loop].
    rewrite Hcond. unfold bind. rewrite poll_iteration_eq, Hfetch, Hstatus.
    cbn [is_failure_status String.eqb Ascii.eqb Bool.eqb orb].
    destruct (RunResponse.required_action cur);
      (destruct (poll_fuel - S n); cbn [poll_loop]; unfold loop_condition, polled;
       cbn [PollState.runStatus]; rewrite Hstatus; reflexivity).
  - cbn [polled PollState.elapsedTime]. rewrite E. lia.
  - unfold poll_fuel, maxWaitTime, pollInterval in Hn.
    change (Z.to_nat (300000 / 1000)) with 300 in Hn. lia.
Qed.

Lemma poll_loop_sees_completion_witness :
  let server := Sample.service Sample.completing Sample.listing in
  let w1 := snd (createThreadAndRun server Sample.handler "S" Sample.conversation
                   initial_world) in
  exists w3,
    poll_loop server poll_fuel Sample.handler Sample.thread
      (Sample.run_in "queued" None None)
      (initial_poll_state (Sample.run_in "queued" None None)) w1
    = (Normal {| PollState.runStatus := "completed";
                 PollState.currentRun := Sample.run_in "completed" None None;
                 PollState.elapsedTime := 2000 |}, w3).
Proof.
  intros server w1.
  edestruct (poll_loop_sees_completion server Sample.handler Sample.thread
               (Sample.run_in "queued" None None) w1 1) as (H & _ & _).
  - eapply iterates_step; [reflexivity | vm_compute; reflexivity | apply iterates_refl].
  - reflexivity.
  - vm_compute. reflexivity.
  - reflexivity.
  - eexists. exact H.
Defined.

Section Unhandled.

Variable server : Server.
Variable this : Handler.t.
Variable thread : ThreadResponse.t.
Variable run : RunResponse.t.

Lemma poll_iteration_unhandled : forall st w currentRun w1,
  fetch_run server this thread run w = (Normal currentRun, w1) ->
  is_handled_status (RunResponse.status currentRun) = false ->
  poll_iteration server this thread run st w = (Normal (polled st currentRun), w1).
Proof.
  intros st w cur w1 Hfetch H. rewrite poll_iteration_eq, Hfetch.
  unfold is_handled_status in H.
  apply orb_false_elim in H as [H Hr]. apply orb_false_elim in H as [_ Hf].
  rewrite Hf, Hr. reflexivity.
Qed.

Lemma poll_loop_unhandled : forall fuel st w,
  unhandled_from server (calls w) ->
  PollState.runStatus st <> "completed" ->
  (maxWaitTime - PollState.elapsedTime st <= Z.of_nat fuel * pollInterval)%Z ->
  exists st' w' polls,
    poll_loop server fuel this thread run st w = (Normal st', w')
    /\ PollState.runStatus st' <> "completed"
    /\ requests w'
       = (requests w
          ++ repeat (request_of this GET (run_endpoint thread run) None) polls)%list.
Proof.
  induction fuel as [|fuel IH]; intros st w Hstuck Hstatus Hfuel; cbn [poll_loop];
    destruct (loop_condition st) eqn:C.
  - apply andb_prop in C as [_ C]. apply Z.ltb_lt in C. lia.
  - exists st, w, 0. cbn [repeat]. rewrite app_nil_r. auto.
  - destruct (Hstuck (calls w) (le_n _)) as (cur & Hcur & Hs).
    assert (R : retries_taken server KRun (calls w) = 0)
      by (unfold retries_taken; rewrite Hcur; reflexivity).
    pose proof (fetch_run_eq server this thread run w) as F.
    rewrite R, Nat.add_0_r, Hcur in F. cbn [settle] in F.
    unfold bind. rewrite (poll_iteration_unhandled st _ _ _ F Hs).
    destruct (IH (polled st cur)
                 (after_attempts (slept w)
                    (request_of this GET (run_endpoint thread run) None) 0))
      as (st' & w' & polls & Hloop & Hst' & Hreq).
    + intros i Hi. apply Hstuck. cbn in Hi. lia.
    + cbn [polled PollState.runStatus]. intros Hc. rewrite Hc in Hs. discriminate.
    + cbn [polled PollState.elapsedTime]. unfold pollInterval in *. lia.
    + exists st', w', (S polls). split; [exact Hloop|]. split; [exact Hst'|].
      rewrite Hreq, requests_attempts, requests_slept.
      rewrite <- app_assoc. reflexivity.
  - exists st, w, 0. cbn [repeat]. rewrite app_nil_r. auto.
Qed.

End Unhandled.

(** X12.  The loop acts on "completed", "failed", "cancelled", "expired" and
    "requires_action" only.  A poll that fetches a run in any other status
    ("incomplete", say) ends normally right after the fetch, with no
    submission even when [required_action] is present; and when, from some
    round on, every fetch gives such a status, the invocation only polls
    until the budget is used up and throws the timeout error. *)
Theorem createMessage_unhandled_status :
  forall server this thread run,
    (forall st w currentRun w1,
        fetch_run server this thread run w = (Normal currentRun, w1) ->
        is_handled_status (RunResponse.status currentRun) = false ->
        poll_iteration server this thread run st w = (Normal (polled st currentRun), w1))
    /\ (forall systemPrompt messages w w1 n st w2,
          truthy (Handler.assistantId this) = true ->
          createThreadAndRun server this systemPrompt messages w
            = (Normal (thread, run), w1) ->
          iterates server this thread run n (initial_poll_state run, w1) (st, w2) ->
          PollState.runStatus st <> "completed" ->
          unhandled_from server (calls w2) ->
          exists w3 polls,
            createMessage server this systemPrompt messages w
            = (Throw (ErrorObject "OpenAI Assistant error: Assistant run timeout"), w3)
            /\ requests w3
               = (requests w2
                  ++ repeat (request_of this GET (run_endpoint thread run) None) polls)%list
            /\ yielded w3 = yielded w).
Proof.
  intros server this thread run. split.
  - apply poll_iteration_unhandled.
  - intros systemPrompt messages w w1 n st w2 Hid Hsetup Hiter Hstatus Hstuck.
    pose proof (iterates_elapsed _ _ _ _ _ _ _ Hiter) as E.
    pose proof (iterates_ceiling _ _ _ _ _ _ _ Hiter 0%Z eq_refl ltac:(lia)) as U.
    cbn [fst initial_poll_state PollState.elapsedTime] in E, U.
    assert (Hn : n <= poll_fuel).
    { unfold poll_fuel, maxWaitTime, pollInterval in *.
      change (Z.to_nat (300000 / 1000)) with 300. lia. }
    destruct (poll_loop_unhandled server this thread run (poll_fuel - n) st w2
                Hstuck Hstatus)
      as (st' & w3 & polls & Hloop & Hst' & Hreq).
    { rewrite E. unfold poll_fuel, maxWaitTime, pollInterval in *.
      change (Z.to_nat (300000 / 1000)) with 300 in *. lia. }
    assert (C : createMessage server this systemPrompt messages w
                = (Throw (ErrorObject "OpenAI Assistant error: Assistant run timeout"), w3)).
    { rewrite createMessage_eq by assumption. rewrite Hsetup.
      replace poll_fuel with (n + (poll_fuel - n)) by lia.
      rewrite (iterates_poll_loop _ _ _ _ _ _ _ Hiter). cbn [fst snd]. rewrite Hloop.
      unfold afterPolling. apply String.eqb_neq in Hst'. rewrite Hst'. reflexivity. }
    exists w3, polls. split; [exact C|]. split; [exact Hreq|].
    destruct (createMessage_yields _ _ _ _ _ _ _ C) as [(t & D & _) | (_ & Y)];
      [discriminate | exact Y].
Qed.

Lemma createMessage_unhandled_status_witness :
  exists w3,
    createMessage (Sample.service Scenario.incomplete Sample.listing) Sample.handler
      "S" Sample.conversation initial_world
    = (Throw (ErrorObject "OpenAI Assistant error: Assistant run timeout"), w3)
    /\ length (requests w3) = 303.
Proof.
  destruct (createMessage_unhandled_status
              (Sample.service Scenario.incomplete Sample.listing) Sample.handler
              Sample.thread (Sample.run_in "incomplete" (Some Sample.action) None))
    as (_ & H).
  edestruct (H "S" Sample.conversation initial_world) with (n := 0)
    as (w3 & polls & Hc & _ & _).
  - reflexivity.
  - vm_compute. reflexivity.
  - apply iterates_refl.
  - discriminate.
  - intros i _. eexists. split; reflexivity.
  - exists w3. split; [exact Hc|].
    apply (f_equal snd) in Hc. cbn [snd] in Hc. rewrite <- Hc. vm_compute. reflexivity.
Defined.

(** X13.  A refused submission of tool outputs is not swallowed: when the
    call that submits them ends with an axios error, the invocation throws
    that error, with both prefixes, right after the attempts to submit, and
    yields nothing. *)
Theorem createMessage_submission_failure :
  forall server this systemPrompt messages w thread run w1 n st w2 currentRun w3
         required_action error,
    truthy (Handler.assistantId this) = true ->
    createThreadAndRun server this systemPrompt messages w = (Normal (thread, run), w1) ->
    iterates server this thread run n (initial_poll_state run, w1) (st, w2) ->
    loop_condition st = true ->
    fetch_run server this thread run w2 = (Normal currentRun, w3) ->
    RunResponse.status currentRun = "requires_action" ->
    RunResponse.required_action currentRun = Some required_action ->
    let retries := retries_taken server KUnknown (calls w3) in
    let request :=
      request_of this POST (run_endpoint thread run ++ "/submit_tool_outputs")
        (Some (ToolOutputsBody
                 (toolOutputs (RequiredAction.tool_calls
                                 (RequiredAction.submit_tool_outputs required_action))))) in
    server KUnknown (calls w3 + retries) = RejectedAxios error ->
    createMessage server this systemPrompt messages w
    = (Throw (ErrorObject ("OpenAI Assistant error: OpenAI Assistant API error: "
                           ++ reported_message error)),
       after_attempts w3 request retries)
    /\ yielded (after_attempts w3 request retries) = yielded w.
Proof.
  intros server this systemPrompt messages w thread run w1 n st w2 cur w3 ra error
         Hid Hsetup Hiter Hcond Hfetch Hstatus Haction retries request Hrefused.
  pose proof (iterates_rounds_bound _ _ _ _ _ _ _ _ _ Hiter eq_refl Hcond) as Hn.
  assert (C : createMessage server this systemPrompt messages w
              = (Throw (ErrorObject ("OpenAI Assistant error: OpenAI Assistant API error: "
                                     ++ reported_message error)),
                 after_attempts w3 request retries)).
  { rewrite createMessage_eq by assumption. rewrite Hsetup.
    replace poll_fuel with (n + S (poll_fuel - S n)) by lia.
    rewrite (iterates_poll_loop _ _ _ _ _ _ _ Hiter). cbn [fst snd poll_loop].
    rewrite Hcond. unfold bind. rewrite poll_iteration_eq, Hfetch, Hstatus, Haction.
    cbn [is_failure_status String.eqb Ascii.eqb Bool.eqb orb].
    rewrite submission_eq. fold retries. rewrite Hrefused. reflexivity. }
  split; [exact C|].
  destruct (createMessage_yields _ _ _ _ _ _ _ C) as [(t & D & _) | (_ & Y)];
    [discriminate | exact Y].
Qed.

Lemma createMessage_submission_failure_witness :
  exists w',
    createMessage (Scenario.refusing_submissions Sample.acting) Sample.handler
      "S" Sample.conversation initial_world
    = (Throw (ErrorObject
                "OpenAI Assistant error: OpenAI Assistant API error: Invalid tool outputs"),
       w')
    /\ yielded w' = [].
Proof.
  edestruct (createMessage_submission_failure
               (Scenario.refusing_submissions Sample.acting) Sample.handler
               "S" Sample.conversation initial_world) with (n := 0)
    as (Hc & Hy).
  - reflexivity.
  - vm_compute. reflexivity.
  - apply iterates_refl.
  - reflexivity.
  - vm_compute. reflexivity.
  - reflexivity.
  - reflexivity.
  - vm_compute. reflexivity.
  - eexists. split; [exact Hc | exact Hy].
Defined.
